(** * Embedding the Python interpreter into the simulator (gpi_embed.cpp)

    A shallow embedding of [src/cocotb/share/lib/embed/gpi_embed.cpp]: the
    four exported entry points [_embed_init_python], [_embed_sim_cleanup],
    [_embed_sim_init] and [_embed_sim_event], the static helper
    [get_interpreter_path], and the file's three static variables.

    The C++ code is a sequence of calls into the CPython C API, libc and the
    GPI logging layer, glued by early returns and scope guards.  It is
    modelled as statements of a small monad that threads the process state
    ([World]), records every external call in a list of [Event]s, and
    distinguishes falling through, [return] and process termination.  The
    answers of the embedded runtime are read from a [CPython] record, one field
    per C API function the file calls. *)

From Stdlib Require Import ZArith Lia Ascii String.
From stdpp Require Import base option list strings gmap.

(** ** Values crossing the boundary *)

(** A [PyObject *] that is not NULL; NULL is [None] at type [option PyObj]. *)
Definition PyObj := N.

(** A [PyThreadState *] that is not NULL. *)
Definition PyThreadState := N.

(** A wide string ([wchar_t *]) and the contents of a Python [str]: code
    points.  A [char const *] is a [string], one [ascii] per byte. *)
Definition wstring := list Z.
Definition PyStr := list Z.

(** [enum gpi_log_levels] of gpi_logging.h. *)
Inductive gpi_log_level :=
  GPITrace | GPIDebug | GPIInfo | GPIWarning | GPIError | GPICritical.

(** [PyStatus], as far as the file reads it. *)
Record PyStatus := {
  PyStatus_Exception : bool;
  err_msg : option string;
  func : option string
}.

(** Which runtime owns the thread of control. *)
Inductive Holder := Host | Interpreter.

(** Why a process stops instead of returning to the simulator: a failed
    [assert], the fatal error of the runtime, a read outside an array, or
    the [Py_Exit] of a SystemExit. *)
Inductive Fatal :=
| AssertionFailed (expr : string)
| Py_FatalError
| OutOfBounds
| Py_Exit.

(** ** Calls leaving the translation unit *)

Inductive Event :=
| E_LOG (level : gpi_log_level) (fmt : string)
| E_py_gpi_logger_set_level (level : gpi_log_level)
| E_py_gpi_logger_initialize (log_func filter_func : PyObj)
| E_py_gpi_logger_finalize
| E_to_python
| E_to_simulator
| E_PyGILState_Ensure
| E_PyGILState_Release
| E_PyEval_SaveThread
| E_Py_DecodeLocale (arg : string)
| E_PyMem_RawFree
| E_PyConfig (fn : string)
| E_Py_Initialize (program_name : wstring)
| E_PySys_SetArgvEx
| E_PySys_GetObject (name : string)
| E_PyUnicode_AsWideChar (o : PyObj)
| E_Py_Finalize
| E_PyImport_ImportModule (name : string)
| E_PyObject_CallMethod (o : PyObj) (name : string)
| E_PyArg_ParseTuple (o : PyObj) (fmt : string)
| E_PyObject_GetAttrString (o : PyObj) (name : string)
| E_PyList_New (len : Z)
| E_PyUnicode_DecodeLocale (str : string) (errors : string)
| E_PyList_SetItem (i : nat) (item : PyStr)
| E_PyObject_CallFunctionObjArgs (callable : PyObj) (arg : list (option PyStr))
| E_PyObject_CallFunction (callable : PyObj) (fmt : string) (arg : string)
| E_PyErr_Print
| E_Py_DecRef (o : PyObj)
| E_sleep (seconds : Z).

(** ** Process state *)

(** The three statics of the file ([gtstate], [pEventFn], the function-local
    static buffer [interpreter_path]), libc's [errno] as the next read of it
    in this file finds it, and what the bridge can
    observe of the runtime and of the broker: [Py_IsInitialized()], whether
    the calling thread holds the GIL, and who holds the execution token. *)
Record World := mkWorld {
  gtstate : option PyThreadState;
  pEventFn : option PyObj;
  interpreter_path : list Z;
  errno : Z;
  Py_IsInitialized : bool;
  gil_held : bool;
  token : Holder
}.

Definition set_gtstate (v : option PyThreadState) (w : World) : World :=
  mkWorld v (pEventFn w) (interpreter_path w) (errno w)
          (Py_IsInitialized w) (gil_held w) (token w).
Definition set_pEventFn (v : option PyObj) (w : World) : World :=
  mkWorld (gtstate w) v (interpreter_path w) (errno w)
          (Py_IsInitialized w) (gil_held w) (token w).
Definition set_interpreter_path (v : list Z) (w : World) : World :=
  mkWorld (gtstate w) (pEventFn w) v (errno w)
          (Py_IsInitialized w) (gil_held w) (token w).
Definition set_errno (v : Z) (w : World) : World :=
  mkWorld (gtstate w) (pEventFn w) (interpreter_path w) v
          (Py_IsInitialized w) (gil_held w) (token w).
Definition set_Py_IsInitialized (v : bool) (w : World) : World :=
  mkWorld (gtstate w) (pEventFn w) (interpreter_path w) (errno w)
          v (gil_held w) (token w).
Definition set_gil_held (v : bool) (w : World) : World :=
  mkWorld (gtstate w) (pEventFn w) (interpreter_path w) (errno w)
          (Py_IsInitialized w) v (token w).
Definition set_token (v : Holder) (w : World) : World :=
  mkWorld (gtstate w) (pEventFn w) (interpreter_path w) (errno w)
          (Py_IsInitialized w) (gil_held w) v.

(** Compile-time facts of the target the file is built for. *)
Record Platform := {
  PATH_MAX : nat;
  sizeof_wchar_t : nat;
  ULONG_MAX : Z;
  PY_VERSION_HEX : Z;
  (** strtoul may set errno to EINVAL when it converts nothing *)
  strtoul_EINVAL : bool
}.

(** [unsigned int] has 32 bits on every target of the file. *)
Definition UINT_MAX : Z := 4294967295.

Definition ERANGE : Z := 34.
Definition EINVAL : Z := 22.

(** ** Statements *)

(** How a statement ends: control reaches the next statement, the enclosing
    function returns, or the process terminates. *)
Inductive Flow (R A : Type) : Type :=
| Next (a : A)
| Return (r : R)
| Crash (why : Fatal).
Arguments Next {R A} a.
Arguments Return {R A} r.
Arguments Crash {R A} why.

(** A statement of a function whose return type is [R]. *)
Definition Stmt (R A : Type) : Type := World → Flow R A * World * list Event.

Definition stmt_ret {R A} (a : A) : Stmt R A := λ w, (Next a, w, []).

Definition stmt_bind {R A B} (f : A → Stmt R B) (m : Stmt R A) : Stmt R B :=
  λ w, match m w with
       | (Next a, w1, t1) =>
           match f a w1 with (r, w2, t2) => (r, w2, t1 ++ t2) end
       | (Return r, w1, t1) => (Return r, w1, t1)
       | (Crash why, w1, t1) => (Crash why, w1, t1)
       end.

#[global] Instance Stmt_ret R : MRet (Stmt R) := λ A, stmt_ret.
#[global] Instance Stmt_bind R : MBind (Stmt R) := λ A B, stmt_bind.

Definition skip {R} : Stmt R unit := stmt_ret tt.
Definition return_ {R A} (r : R) : Stmt R A := λ w, (Return r, w, []).
Definition crash {R A} (why : Fatal) : Stmt R A := λ w, (Crash why, w, []).
Definition emit {R} (e : Event) : Stmt R unit := λ w, (Next tt, w, [e]).
Definition read {R A} (f : World → A) : Stmt R A := λ w, (Next (f w), w, []).
Definition modify {R} (f : World → World) : Stmt R unit :=
  λ w, (Next tt, f w, []).

(** [assert(e)] of <cassert>. *)
Definition assert {R} (expr : string) (e : World → bool) : Stmt R unit :=
  λ w, if e w then (Next tt, w, []) else (Crash (AssertionFailed expr), w, []).

(** Modelled from the spec: the [DEFER] macro of cocotb_utils.h, which is not
    under src/.  It is the scope guard of the design notes, whose destructor
    guarantees release even when an error path returns early: the deferred
    statement runs when the rest of the scope is left, by falling off its end
    or by [return], and not when the process terminates. *)
Definition DEFER {R A} (deferred : Stmt R unit) (scope : Stmt R A) : Stmt R A :=
  λ w, match scope w with
       | (Crash why, w1, t1) => (Crash why, w1, t1)
       | (r, w1, t1) =>
           match deferred w1 with (_, w2, t2) => (r, w2, t1 ++ t2) end
       end.

(** Calling a function: its [return] value, or the value its body ends with,
    is the value of the call. *)
Definition call {R A} (body : Stmt A A) : Stmt R A :=
  λ w, match body w with
       | (Next a, w1, t1) | (Return a, w1, t1) => (Next a, w1, t1)
       | (Crash why, w1, t1) => (Crash why, w1, t1)
       end.

(** What the simulator sees of a call to an exported function. *)
Inductive Outcome (A : Type) : Type :=
| Returns (a : A) (w : World) (events : list Event)
| Terminates (why : Fatal) (w : World) (events : list Event).
Arguments Returns {A} a w events.
Arguments Terminates {A} why w events.

Definition run {A} (body : Stmt A A) (w : World) : Outcome A :=
  match body w with
  | (Next a, w1, t1) | (Return a, w1, t1) => Returns a w1 t1
  | (Crash why, w1, t1) => Terminates why w1 t1
  end.

Definition events_of {A} (o : Outcome A) : list Event :=
  match o with Returns _ _ t | Terminates _ _ t => t end.
Definition world_of {A} (o : Outcome A) : World :=
  match o with Returns _ w _ | Terminates _ w _ => w end.
Definition returned {A} (o : Outcome A) : option A :=
  match o with Returns a _ _ => Some a | Terminates _ _ _ => None end.

(** ** The collaborators *)

(** Logging macros of gpi_logging.h; the format string is recorded. *)
Definition LOG_INFO {R} (fmt : string) : Stmt R unit := emit (E_LOG GPIInfo fmt).
Definition LOG_ERROR {R} (fmt : string) : Stmt R unit := emit (E_LOG GPIError fmt).

Definition py_gpi_logger_set_level {R} (l : gpi_log_level) : Stmt R unit :=
  emit (E_py_gpi_logger_set_level l).
Definition py_gpi_logger_initialize {R} (log_func filter_func : PyObj)
  : Stmt R unit := emit (E_py_gpi_logger_initialize log_func filter_func).
Definition py_gpi_logger_finalize {R} : Stmt R unit :=
  emit E_py_gpi_logger_finalize.

(** Modelled from the spec: [to_python] and [to_simulator] of cocotb_utils.h,
    which is not under src/.  They are the two handoff primitives of the
    Thread-State Broker, transferring the single right to execute to the
    interpreter and back to the host. *)
Definition to_python {R} : Stmt R unit :=
  emit E_to_python ;; modify (set_token Interpreter).
Definition to_simulator {R} : Stmt R unit :=
  emit E_to_simulator ;; modify (set_token Host).

(** ** libc *)

Module Libc.

(** [isspace] in the C locale. *)
Definition isspace (c : ascii) : bool :=
  let n := Ascii.N_of_ascii c in
  (n =? 32)%N || ((9 <=? n)%N && (n <=? 13)%N).

Definition digit (c : ascii) : option Z :=
  let n := Z.of_N (Ascii.N_of_ascii c) in
  if ((48 <=? n) && (n <=? 57))%Z then Some (n - 48)%Z else None.

Fixpoint skip_spaces (s : string) : string :=
  match s with
  | String c rest => if isspace c then skip_spaces rest else s
  | EmptyString => s
  end.

(** The value of the longest prefix of decimal digits, [None] when the
    prefix is empty. *)
Fixpoint digits (acc : option Z) (s : string) : option Z :=
  match s with
  | String c rest =>
      match digit c with
      | Some d => digits (Some (10 * default 0%Z acc + d)%Z) rest
      | None => acc
      end
  | EmptyString => acc
  end.

(** An optional sign: whether it is a minus, and what follows it. *)
Definition sign (s : string) : bool * string :=
  match s with
  | String c rest =>
      if (c =? "-")%char then (true, rest)
      else if (c =? "+")%char then (false, rest)
      else (false, s)
  | EmptyString => (false, s)
  end.

(** [strtoul(s, NULL, 10)] for an [unsigned long] whose largest value is
    [ulong_max]: the converted value and the value of [errno] afterwards.
    White space is skipped, a sign is accepted, a negative value is negated
    in the unsigned type, a value out of range gives [ulong_max] with
    [errno = ERANGE], and when nothing is converted the result is 0 and
    [errno] is left alone or, where the platform does so, set to EINVAL. *)
Definition strtoul (ulong_max : Z) (einval : bool) (s : string) (errno : Z)
  : Z * Z :=
  let '(neg, s2) := sign (skip_spaces s) in
  match digits None s2 with
  | None => (0%Z, if einval then EINVAL else errno)
  | Some v =>
      if (ulong_max <? v)%Z then (ulong_max, ERANGE)
      else (if neg then ((- v) mod (ulong_max + 1))%Z else v, errno)
  end.

(** Whether [strtoul] finds a number at the front of [s]: digits after
    optional white space and an optional sign. *)
Definition numeric (s : string) : bool :=
  if digits None (sign (skip_spaces s)).2 is Some _ then true else false.

(** [wcsncpy(dest, src, n)] into a buffer of [n] wide characters: at most
    [n] characters of [src] are copied and the remainder is filled with
    null characters. *)
Definition wcsncpy (src : list Z) (n : nat) : list Z :=
  take n src ++ replicate (n - length src) 0%Z.

(** The wide string held by a buffer: the characters before the first
    null one. *)
Fixpoint wcs (buf : list Z) : list Z :=
  match buf with
  | c :: rest => if (c =? 0)%Z then [] else c :: wcs rest
  | [] => []
  end.

(** [wcscmp(a, b) != 0]. *)
Definition wcs_differ (a b : list Z) : bool :=
  negb (bool_decide (wcs a = wcs b)).

End Libc.

(** ** The embedded runtime, as the C API shows it *)

Module Runtime.

(** The multibyte codec of the platform locale: [mbrtowc] converts one
    character off the front of a byte string and says how many bytes it
    took, [wcrtomb] converts one character back. *)
Record Codec := {
  mbrtowc : list ascii → option (Z * nat);
  wcrtomb : Z → option (list ascii)
}.

(** The answers of the C API functions the file calls; [None] is a NULL
    result with an exception set. *)
Record CPython := {
  Py_DecodeLocale : string → option (list Z);
  PyConfig_SetArgv : PyStatus;
  Py_InitializeFromConfig : list Z → PyStatus;
  (** [Py_Initialize] has no result: it ends the process when it fails *)
  Py_Initialize : list Z → bool;
  PySys_GetObject : string → option PyObj;
  PyUnicode_AsWideChar : PyObj → option (list Z);
  PyEval_SaveThread : PyThreadState;
  PyImport_ImportModule : string → option PyObj;
  PyObject_CallMethod : PyObj → string → option PyObj;
  PyArg_ParseTuple_OO : PyObj → option (PyObj * PyObj);
  PyObject_GetAttrString : PyObj → string → option PyObj;
  (** allocation of a list of a non-negative length *)
  PyList_New : Z → option PyObj;
  (** allocation of the result of a decode: only MemoryError or similar *)
  PyUnicode_New : nat → string → bool;
  locale : Codec;
  PyObject_CallFunctionObjArgs : PyObj → list (option PyStr) → option PyObj;
  PyObject_CallFunction : PyObj → string → option PyObj;
  (** whether the exception that a failed call leaves pending is a
      SystemExit on which [PyErr_Print] exits *)
  SystemExit : Event → bool
}.

Definition byte_of (c : ascii) : Z := Z.of_N (Ascii.N_of_ascii c).
Definition ascii_of (z : Z) : ascii := Ascii.ascii_of_N (Z.to_N z).

Definition is_escape (c : Z) : bool := ((0xDC80 <=? c) && (c <=? 0xDCFF))%Z.

(** The decoding loop of the current-locale decoder with the
    surrogateescape handler (PEP 383): a character the locale converts is
    taken as it is, a byte it does not convert becomes the lone surrogate
    U+DC00 + byte; the loop is bounded by the number of bytes left. *)
Fixpoint decode_surrogateescape (cd : Codec) (argsize : nat) (s : list ascii)
  : PyStr :=
  match argsize with
  | O => []
  | S argsize' =>
      match s with
      | [] => []
      | b :: rest =>
          match mbrtowc cd s with
          | Some (c, converted) =>
              c :: decode_surrogateescape cd argsize' (drop converted s)
          | None =>
              (0xDC00 + byte_of b)%Z :: decode_surrogateescape cd argsize' rest
          end
      end
  end.

(** The current-locale encoder with the surrogateescape handler: a code
    point in U+DC80..U+DCFF gives back its byte, any other one is converted
    by the locale, and a character the locale cannot convert is an error. *)
Fixpoint encode_surrogateescape (cd : Codec) (u : PyStr)
  : option (list ascii) :=
  match u with
  | [] => Some []
  | c :: rest =>
      bytes ← (if is_escape c then Some [ascii_of (c - 0xDC00)]
               else wcrtomb cd c);
      tail ← encode_surrogateescape cd rest;
      Some (bytes ++ tail)
  end.

(** The strict decoder: the same loop, where a byte the locale does not
    convert is an error. *)
Fixpoint decode_strict (cd : Codec) (argsize : nat) (s : list ascii)
  : option PyStr :=
  match argsize with
  | O => Some []
  | S argsize' =>
      match s with
      | [] => Some []
      | _ :: _ =>
          match mbrtowc cd s with
          | Some (c, converted) =>
              tail ← decode_strict cd argsize' (drop converted s);
              Some (c :: tail)
          | None => None
          end
      end
  end.

(** [PyUnicode_DecodeLocale(str, errors)] when memory is available; the
    only handlers it accepts are "strict" and "surrogateescape". *)
Definition decode_locale (cd : Codec) (str errors : string) : option PyStr :=
  let s := list_ascii_of_string str in
  if bool_decide (errors = "surrogateescape") then
    Some (decode_surrogateescape cd (length s) s)
  else if bool_decide (errors = "strict") then
    decode_strict cd (length s) s
  else None.

(** [PyUnicode_EncodeLocale(unicode, "surrogateescape")], as bytes. *)
Definition encode_locale (cd : Codec) (u : PyStr) : option string :=
  string_of_list_ascii <$> encode_surrogateescape cd u.

End Runtime.

(** ** C API calls as statements

    Each call is recorded as an event; its answer comes from the runtime. *)

Section Calls.
Context {R : Type} (py : Runtime.CPython).

(** The result is the previous state of the GIL for this thread
    ([PyGILState_LOCKED] is [true]); [PyGILState_Release] restores it.  The
    call is specified for an initialized runtime only, and that is how it is
    modelled: what CPython does with it before [Py_Initialize] or after
    [Py_Finalize] is not followed. *)
Definition PyGILState_Ensure : Stmt R bool :=
  emit E_PyGILState_Ensure ;;
  held ← read gil_held;
  modify (set_gil_held true) ;;
  mret held.

Definition PyGILState_Release (gstate : bool) : Stmt R unit :=
  emit E_PyGILState_Release ;; modify (set_gil_held gstate).

(** [PyErr_Print()] dumps the pending exception, the one left by the call
    [failed] that has just given NULL.  When that exception is SystemExit it
    does not return: it ends the process through [Py_Exit], and no scope
    guard runs. *)
Definition PyErr_Print (failed : Event) : Stmt R unit :=
  emit E_PyErr_Print ;;
  if Runtime.SystemExit py failed then crash Py_Exit else skip.

Definition Py_DECREF (o : PyObj) : Stmt R unit := emit (E_Py_DecRef o).

(** [Py_DecRef] and [Py_XDECREF] do nothing on NULL. *)
Definition Py_XDECREF (o : option PyObj) : Stmt R unit :=
  match o with Some o => Py_DECREF o | None => skip end.
Definition Py_DecRef (o : option PyObj) : Stmt R unit := Py_XDECREF o.

Definition Py_DecodeLocale (arg : string) : Stmt R (option (list Z)) :=
  emit (E_Py_DecodeLocale arg) ;; mret (Runtime.Py_DecodeLocale py arg).

Definition PyMem_RawFree : Stmt R unit := emit E_PyMem_RawFree.

Definition PyConfig_SetArgv : Stmt R PyStatus :=
  emit (E_PyConfig "PyConfig_SetArgv") ;; mret (Runtime.PyConfig_SetArgv py).

Definition PyConfig_Clear : Stmt R unit := emit (E_PyConfig "PyConfig_Clear").

(** A successful initialization leaves the runtime initialized and the
    GIL held by the calling thread. *)
Definition Py_InitializeFromConfig (program_name : list Z) : Stmt R PyStatus :=
  emit (E_Py_Initialize program_name) ;;
  let status := Runtime.Py_InitializeFromConfig py program_name in
  (if PyStatus_Exception status then skip
   else modify (set_Py_IsInitialized true) ;; modify (set_gil_held true)) ;;
  mret status.

Definition Py_Initialize (program_name : list Z) : Stmt R unit :=
  emit (E_Py_Initialize program_name) ;;
  if Runtime.Py_Initialize py program_name
  then modify (set_Py_IsInitialized true) ;; modify (set_gil_held true)
  else crash Py_FatalError.

Definition PySys_SetArgvEx : Stmt R unit := emit E_PySys_SetArgvEx.

Definition PySys_GetObject (name : string) : Stmt R (option PyObj) :=
  emit (E_PySys_GetObject name) ;; mret (Runtime.PySys_GetObject py name).

Definition PyUnicode_AsWideChar (o : PyObj) : Stmt R (option (list Z)) :=
  emit (E_PyUnicode_AsWideChar o) ;; mret (Runtime.PyUnicode_AsWideChar py o).

Definition PyEval_SaveThread : Stmt R PyThreadState :=
  emit E_PyEval_SaveThread ;;
  modify (set_gil_held false) ;;
  mret (Runtime.PyEval_SaveThread py).

Definition Py_Finalize : Stmt R unit :=
  emit E_Py_Finalize ;;
  modify (set_Py_IsInitialized false) ;;
  modify (set_gil_held false).

Definition PyImport_ImportModule (name : string) : Stmt R (option PyObj) :=
  emit (E_PyImport_ImportModule name) ;;
  mret (Runtime.PyImport_ImportModule py name).

Definition PyObject_CallMethod (o : PyObj) (name : string)
  : Stmt R (option PyObj) :=
  emit (E_PyObject_CallMethod o name) ;;
  mret (Runtime.PyObject_CallMethod py o name).

Definition PyArg_ParseTuple_OO (o : PyObj) : Stmt R (option (PyObj * PyObj)) :=
  emit (E_PyArg_ParseTuple o "OO") ;; mret (Runtime.PyArg_ParseTuple_OO py o).

Definition PyObject_GetAttrString (o : PyObj) (name : string)
  : Stmt R (option PyObj) :=
  emit (E_PyObject_GetAttrString o name) ;;
  mret (Runtime.PyObject_GetAttrString py o name).

(** A negative length is an error; the new list holds NULL items. *)
Definition PyList_New (len : Z)
  : Stmt R (option (PyObj * list (option PyStr))) :=
  emit (E_PyList_New len) ;;
  if (len <? 0)%Z then mret None
  else match Runtime.PyList_New py len with
       | Some o => mret (Some (o, replicate (Z.to_nat len) None))
       | None => mret None
       end.

Definition PyUnicode_DecodeLocale (i : nat) (str errors : string)
  : Stmt R (option PyStr) :=
  emit (E_PyUnicode_DecodeLocale str errors) ;;
  if Runtime.PyUnicode_New py i str
  then mret (Runtime.decode_locale (Runtime.locale py) str errors)
  else mret None.

Definition PyList_SetItem (l : list (option PyStr)) (i : nat) (item : PyStr)
  : Stmt R (list (option PyStr)) :=
  emit (E_PyList_SetItem i item) ;; mret (<[i := Some item]> l).

Definition PyObject_CallFunctionObjArgs (callable : PyObj)
    (arg : list (option PyStr)) : Stmt R (option PyObj) :=
  emit (E_PyObject_CallFunctionObjArgs callable arg) ;;
  mret (Runtime.PyObject_CallFunctionObjArgs py callable arg).

Definition PyObject_CallFunction (callable : PyObj) (fmt arg : string)
  : Stmt R (option PyObj) :=
  emit (E_PyObject_CallFunction callable fmt arg) ;;
  mret (Runtime.PyObject_CallFunction py callable arg).

(** [strtoul(s, NULL, 10)], reading and writing [errno]. *)
Definition strtoul (P : Platform) (s : string) : Stmt R Z :=
  e ← read errno;
  let '(v, e') := Libc.strtoul (ULONG_MAX P) (strtoul_EINVAL P) s e in
  modify (set_errno e') ;;
  mret v.

Definition sleep (seconds : Z) : Stmt R unit := emit (E_sleep seconds).

(** [if (!p) { on_null }] followed by uses of the non-NULL [p]. *)
Definition if_null {A} (p : option A) (on_null : Stmt R A) : Stmt R A :=
  match p with Some a => mret a | None => on_null end.

End Calls.

(** ** gpi_embed.cpp *)

Section Embed.
Context (P : Platform) (env : gmap string string) (py : Runtime.CPython).

(** [get_interpreter_path(interpreter_path, path_size)]; its only caller
    passes the static buffer [interpreter_path]. *)
Definition get_interpreter_path (path_size : nat) : Stmt Z Z :=
  match env !! "PYTHON_BIN" with
  | None =>
      LOG_INFO "Did not detect Python virtual environment. Using system-wide Python interpreter" ;;
      return_ (-1)%Z
  | Some path_c =>
      path_temp ← Py_DecodeLocale py path_c;
      match path_temp with
      | None =>
          LOG_ERROR "Unable to set Python Program Name. Decoding error in Python executable path." ;;
          LOG_INFO "Python executable path: %s" ;;
          return_ (-1)%Z
      | Some path_temp =>
          DEFER PyMem_RawFree (
            modify (set_interpreter_path
                      (Libc.wcsncpy path_temp (path_size / sizeof_wchar_t P))) ;;
            path ← read interpreter_path;
            if negb (nth (path_size / sizeof_wchar_t P - 1) path 0 =? 0)%Z then
              LOG_ERROR "Unable to set Python Program Name. Path to interpreter too long" ;;
              LOG_INFO "Python executable path: %s" ;;
              return_ (-1)%Z
            else
              return_ 0%Z)
      end
  end.

Definition logStrToLevel : gmap string gpi_log_level :=
  list_to_map [("CRITICAL", GPICritical); ("ERROR", GPIError);
               ("WARNING", GPIWarning); ("INFO", GPIInfo);
               ("DEBUG", GPIDebug); ("TRACE", GPITrace)].

(** The attach wait at the end of [_embed_init_python]. *)
Definition attach_wait : Stmt unit unit :=
  match env !! "COCOTB_ATTACH" with
  | Some pause =>
      sleep_time ← strtoul P pause;
      e ← read errno;
      if (e =? ERANGE)%Z || (UINT_MAX <=? sleep_time)%Z then
        LOG_ERROR "COCOTB_ATTACH only needs to be set to ~30 seconds" ;;
        return_ tt
      else if (negb (e =? 0)%Z && (sleep_time =? 0)%Z) || (sleep_time <=? 0)%Z then
        LOG_ERROR "COCOTB_ATTACH must be set to an integer base 10 or omitted" ;;
        return_ tt
      else
        LOG_ERROR "Waiting for %lu seconds - attach to PID %d with your debugger" ;;
        sleep (sleep_time mod (UINT_MAX + 1))%Z
  | None => skip
  end.

(** Report of a failed [PyStatus], then [PyConfig_Clear] and [return]. *)
Definition status_failed (what : string) (status : PyStatus) : Stmt unit unit :=
  LOG_ERROR what ;;
  (if err_msg status is Some _ then LOG_ERROR "	error: %s" else skip) ;;
  (if func status is Some _ then LOG_ERROR "	function: %s" else skip) ;;
  PyConfig_Clear ;;
  return_ tt.

Definition _embed_init_python : Stmt unit unit :=
  assert "!gtstate" (λ w, if gtstate w is Some _ then false else true) ;;
  match env !! "COCOTB_LOG_LEVEL" with
  | Some log_level =>
      match logStrToLevel !! log_level with
      | Some level => py_gpi_logger_set_level level
      | None => LOG_ERROR "Invalid log level: %s"
      end
  | None => skip
  end ;;
  to_python ;;
  r ← call (get_interpreter_path (PATH_MAX P * sizeof_wchar_t P));
  (if negb (r =? 0)%Z then return_ tt else skip) ;;
  LOG_INFO "Using Python interpreter at %ls" ;;
  path ← read (λ w, Libc.wcs (interpreter_path w));
  (if (0x3080000 <=? PY_VERSION_HEX P)%Z then
     emit (E_PyConfig "PyConfig_InitPythonConfig") ;;
     emit (E_PyConfig "PyConfig_SetString") ;;
     status ← PyConfig_SetArgv py;
     (if PyStatus_Exception status
      then status_failed "Failed to set ARGV during the Python initialization" status
      else skip) ;;
     status ← Py_InitializeFromConfig py path;
     (if PyStatus_Exception status
      then status_failed "Failed to initialize Python" status
      else skip) ;;
     PyConfig_Clear
   else
     emit (E_PyConfig "Py_SetProgramName") ;;
     Py_Initialize py path ;;
     PySys_SetArgvEx) ;;
  sys_executable_obj ← PySys_GetObject py "executable";
  match sys_executable_obj with
  | None => LOG_ERROR "Failed to load sys.executable"
  | Some o =>
      sys_executable ← PyUnicode_AsWideChar py o;
      match sys_executable with
      | None => LOG_ERROR "Failed to convert sys.executable to wide string"
      | Some sys_executable =>
          if Libc.wcs_differ path sys_executable
          then LOG_ERROR "Unexpected sys.executable value (expected '%ls', got '%ls')"
          else skip
      end
  end ;;
  tstate ← PyEval_SaveThread py;
  modify (set_gtstate (Some tstate)) ;;
  to_simulator ;;
  attach_wait.

Definition _embed_sim_cleanup : Stmt unit unit :=
  initialized ← read Py_IsInitialized;
  if (initialized : bool) then
    to_python ;;
    PyGILState_Ensure ;;
    fn ← read pEventFn;
    Py_DecRef fn ;;
    modify (set_pEventFn None) ;;
    py_gpi_logger_finalize ;;
    Py_Finalize ;;
    to_simulator
  else skip.

(** The loop [for (int i = 0; i < argc; i++)] of [_embed_sim_init], with
    [remaining = argc - i] and the items stored so far in the list object;
    reading [_argv] past its end is undefined. *)
Fixpoint decode_argv (_argv : list string) (remaining i : nat)
    (argv_list : list (option PyStr)) : Stmt Z (list (option PyStr)) :=
  match remaining with
  | O => mret argv_list
  | S remaining' =>
      match _argv !! i with
      | None => crash OutOfBounds
      | Some arg =>
          argv_item ← PyUnicode_DecodeLocale py i arg "surrogateescape";
          argv_item ← if_null argv_item (
            PyErr_Print py (E_PyUnicode_DecodeLocale arg "surrogateescape") ;;
            return_ (-1)%Z);
          argv_list ← PyList_SetItem argv_list i argv_item;
          decode_argv _argv remaining' (S i) argv_list
      end
  end.

Definition _embed_sim_init (argc : Z) (_argv : list string) : Stmt Z Z :=
  fn ← read pEventFn;
  (if fn is Some _ then return_ 0%Z else skip) ;;
  gstate ← PyGILState_Ensure;
  DEFER (PyGILState_Release gstate) (
  to_python ;;
  DEFER to_simulator (
  entry_utility_module ← PyImport_ImportModule py "pygpi.entry";
  entry_utility_module ←
    if_null entry_utility_module (
      PyErr_Print py (E_PyImport_ImportModule "pygpi.entry") ;; return_ (-1)%Z);
  DEFER (Py_DECREF entry_utility_module) (
  entry_info_tuple ← PyObject_CallMethod py entry_utility_module "load_entry";
  entry_info_tuple ← if_null entry_info_tuple (
    PyErr_Print py (E_PyObject_CallMethod entry_utility_module "load_entry") ;;
    return_ (-1)%Z);
  DEFER (Py_DECREF entry_info_tuple) (
  parsed ← PyArg_ParseTuple_OO py entry_info_tuple;
  '(entry_module, entry_point) ← if_null parsed (
    PyErr_Print py (E_PyArg_ParseTuple entry_info_tuple "OO") ;; return_ (-1)%Z);
  log_func ← PyObject_GetAttrString py entry_module "_log_from_c";
  log_func ← if_null log_func (
    PyErr_Print py (E_PyObject_GetAttrString entry_module "_log_from_c") ;;
    return_ (-1)%Z);
  DEFER (Py_DECREF log_func) (
  filter_func ← PyObject_GetAttrString py entry_module "_filter_from_c";
  filter_func ← if_null filter_func (
    PyErr_Print py (E_PyObject_GetAttrString entry_module "_filter_from_c") ;;
    return_ (-1)%Z);
  DEFER (Py_DECREF filter_func) (
  py_gpi_logger_initialize log_func filter_func ;;
  fn ← PyObject_GetAttrString py entry_module "_sim_event";
  modify (set_pEventFn fn) ;;
  _ ← if_null fn (
    PyErr_Print py (E_PyObject_GetAttrString entry_module "_sim_event") ;;
    return_ (-1)%Z);
  argv_list ← PyList_New py argc;
  '(argv_list, items) ← if_null argv_list (
    PyErr_Print py (E_PyList_New argc) ;; return_ (-1)%Z);
  items ← decode_argv _argv (Z.to_nat argc) 0 items;
  DEFER (Py_DECREF argv_list) (
  cocotb_retval ← PyObject_CallFunctionObjArgs py entry_point items;
  cocotb_retval ← if_null cocotb_retval (
    PyErr_Print py (E_PyObject_CallFunctionObjArgs entry_point items) ;;
    return_ (-1)%Z);
  Py_DECREF cocotb_retval ;;
  return_ 0%Z))))))).

Definition _embed_sim_event (msg : option string) : Stmt unit unit :=
  fn ← read pEventFn;
  match fn with
  | Some pEventFn =>
      to_python ;;
      gstate ← PyGILState_Ensure;
      let msg := match msg with
                 | None => "No message provided"
                 | Some msg => msg
                 end in
      pValue ← PyObject_CallFunction py pEventFn "s" msg;
      match pValue with
      | None =>
          PyErr_Print py (E_PyObject_CallFunction pEventFn "s" msg) ;;
          LOG_ERROR "Passing event to upper layer failed"
      | Some _ => skip
      end ;;
      Py_XDECREF pValue ;;
      PyGILState_Release gstate ;;
      to_simulator
  | None => skip
  end.

End Embed.

(** ** Observations on the events of a call *)

(** Calls that may only be made while the interpreter holds the execution
    token and the calling thread holds the GIL. *)
Definition needs_interpreter (e : Event) : bool :=
  match e with
  | E_PyImport_ImportModule _ | E_PyObject_CallMethod _ _
  | E_PyArg_ParseTuple _ _ | E_PyObject_GetAttrString _ _
  | E_PyList_New _ | E_PyUnicode_DecodeLocale _ _ | E_PyList_SetItem _ _
  | E_PyObject_CallFunctionObjArgs _ _ | E_PyObject_CallFunction _ _ _
  | E_PyErr_Print | E_Py_DecRef _ | E_py_gpi_logger_initialize _ _ => true
  | _ => false
  end.

(** One event of a crossing: who holds the token and how many
    [PyGILState_Ensure] are open.  [None] when the event is out of place: a
    handoff by the side that does not hold the token, a release that matches
    no acquisition, or a call that needs the interpreter outside the pair. *)
Definition crossing_step (c : Holder * nat) (e : Event) : option (Holder * nat) :=
  let '(h, n) := c in
  match e with
  | E_to_python => if h is Host then Some (Interpreter, n) else None
  | E_to_simulator => if h is Interpreter then Some (Host, n) else None
  | E_PyGILState_Ensure => Some (h, S n)
  | E_PyGILState_Release => if n is S n' then Some (h, n') else None
  | _ =>
      if needs_interpreter e then
        match h, n with
        | Interpreter, S _ => Some c
        | _, _ => None
        end
      else Some c
  end.

Fixpoint crossing (t : list Event) (c : Holder * nat) : option (Holder * nat) :=
  match t with
  | [] => Some c
  | e :: t' =>
      match crossing_step c e with
      | Some c' => crossing t' c'
      | None => None
      end
  end.

(** The events of the argument loop of [_embed_sim_init]: decodes with the
    surrogateescape handler, stores into the list, and the dump of an error. *)
Definition is_marshal (e : Event) : bool :=
  match e with
  | E_PyUnicode_DecodeLocale _ errors => String.eqb errors "surrogateescape"
  | E_PyList_SetItem _ _ | E_PyErr_Print => true
  | _ => false
  end.

(** What [PyUnicode_DecodeLocale(str, "surrogateescape")] makes of [str]. *)
Definition marshal (cd : Runtime.Codec) (str : string) : PyStr :=
  let s := list_ascii_of_string str in
  Runtime.decode_surrogateescape cd (length s) s.

Definition is_Py_DecRef (e : Event) : bool :=
  match e with E_Py_DecRef _ => true | _ => false end.

Definition is_PyObject_CallFunction (e : Event) : bool :=
  match e with E_PyObject_CallFunction _ _ _ => true | _ => false end.

Definition is_sleep (e : Event) : bool :=
  match e with E_sleep _ => true | _ => false end.

(** Re-encoding the argument list handed to the entry point, item by item;
    [None] when an item is NULL or cannot be encoded. *)
Definition unmarshal (cd : Runtime.Codec) (arg : list (option PyStr))
  : option (list string) :=
  mapM (λ item : option PyStr, item ≫= Runtime.encode_locale cd) arg.

(** A locale whose encoder gives back the bytes its decoder took, whose
    decoder yields no code point of the escape range, and which decodes every
    7-bit byte: the encodings PEP 383 is specified for. *)
Record canonical (cd : Runtime.Codec) : Prop := {
  mbrtowc_wcrtomb : ∀ s c k,
    Runtime.mbrtowc cd s = Some (c, k) →
    0 < k ∧ Runtime.wcrtomb cd c = Some (take k s);
  mbrtowc_no_escape : ∀ s c k,
    Runtime.mbrtowc cd s = Some (c, k) → Runtime.is_escape c = false;
  mbrtowc_ascii : ∀ b s,
    (Runtime.byte_of b < 0x80)%Z → Runtime.mbrtowc cd (b :: s) ≠ None
}.

(** The four symbols [_embed_sim_init] resolves. *)
Inductive Symbol := log_hook | filter_hook | event_hook | main_entry.

(** The entry module is found and exactly [sym] fails to resolve: the main
    entry comes out of [load_entry] and the parse of its result, the three
    hooks are attributes of the entry module. *)
Definition missing_exactly (py : Runtime.CPython) (sym : Symbol) : Prop :=
  ∃ m, Runtime.PyImport_ImportModule py "pygpi.entry" = Some m ∧
  match sym with
  | main_entry =>
      Runtime.PyObject_CallMethod py m "load_entry"
        ≫= Runtime.PyArg_ParseTuple_OO py = None
  | _ =>
      ∃ t entry_module entry_point,
        Runtime.PyObject_CallMethod py m "load_entry" = Some t ∧
        Runtime.PyArg_ParseTuple_OO py t = Some (entry_module, entry_point) ∧
        (Runtime.PyObject_GetAttrString py entry_module "_log_from_c" = None
           ↔ sym = log_hook) ∧
        (Runtime.PyObject_GetAttrString py entry_module "_filter_from_c" = None
           ↔ sym = filter_hook) ∧
        (Runtime.PyObject_GetAttrString py entry_module "_sim_event" = None
           ↔ sym = event_hook)
  end.

(** The value and the [errno] that [attach_wait] gets from [strtoul]. *)
Definition parsed_pause (P : Platform) (pause : string) (w : World) : Z * Z :=
  Libc.strtoul (ULONG_MAX P) (strtoul_EINVAL P) pause (errno w).

(** ** A concrete process *)

Module Scenario.

Definition linux : Platform :=
  {| PATH_MAX := 16; sizeof_wchar_t := 4;
     ULONG_MAX := 18446744073709551615;
     PY_VERSION_HEX := 0x30A0000; strtoul_EINVAL := false |}.

(** The "C" locale: 7-bit bytes are characters, the others are invalid. *)
Definition C_locale : Runtime.Codec :=
  {| Runtime.mbrtowc := λ s,
       match s with
       | b :: _ =>
           if (Runtime.byte_of b <? 0x80)%Z
           then Some (Runtime.byte_of b, 1) else None
       | [] => None
       end;
     Runtime.wcrtomb := λ c,
       if ((0 <=? c) && (c <? 0x80))%Z
       then Some [Runtime.ascii_of c] else None |}.

Definition status (failed : bool) : PyStatus :=
  {| PyStatus_Exception := failed;
     err_msg := if failed then Some "out of memory" else None;
     func := None |}.

(** A runtime in which everything succeeds, but for the three switches:
    whether the initialization fails, what the lookup of [_sim_event]
    gives, and what the call of the entry point gives. *)
Definition runtime (init_fails : bool) (sim_event entry_result : option PyObj)
  : Runtime.CPython :=
  {| Runtime.Py_DecodeLocale := λ s,
       Some (Runtime.decode_surrogateescape
               C_locale (String.length s) (list_ascii_of_string s));
     Runtime.PyConfig_SetArgv := status false;
     Runtime.Py_InitializeFromConfig := λ _, status init_fails;
     Runtime.Py_Initialize := λ _, negb init_fails;
     Runtime.PySys_GetObject := λ _, Some 1%N;
     Runtime.PyUnicode_AsWideChar := λ _, Some [47; 112]%Z;
     Runtime.PyEval_SaveThread := 7%N;
     Runtime.PyImport_ImportModule := λ _, Some 10%N;
     Runtime.PyObject_CallMethod := λ _ _, Some 11%N;
     Runtime.PyArg_ParseTuple_OO := λ _, Some (12%N, 13%N);
     Runtime.PyObject_GetAttrString := λ _ name,
       if String.eqb name "_sim_event" then sim_event
       else if String.eqb name "_log_from_c" then Some 14%N
       else Some 15%N;
     Runtime.PyList_New := λ _, Some 20%N;
     Runtime.PyUnicode_New := λ _ _, true;
     Runtime.locale := C_locale;
     Runtime.PyObject_CallFunctionObjArgs := λ _ _, entry_result;
     Runtime.PyObject_CallFunction := λ _ _, Some 31%N;
     Runtime.SystemExit := λ _, false |}.

Definition good : Runtime.CPython := runtime false (Some 16%N) (Some 30%N).
Definition init_fails : Runtime.CPython := runtime true (Some 16%N) (Some 30%N).
Definition no_sim_event : Runtime.CPython := runtime false None (Some 30%N).
Definition entry_raises : Runtime.CPython := runtime false (Some 16%N) None.

(** The process before the simulator has called anything. *)
Definition process_start : World :=
  mkWorld None None (replicate 16 0%Z) 0 false false Host.

Definition venv : gmap string string := {[ "PYTHON_BIN" := "/p" ]}.
Definition venv_attach (pause : string) : gmap string string :=
  <[ "COCOTB_ATTACH" := pause ]> venv.

(** The process after a boot in the virtual environment. *)
Definition booted : World :=
  world_of (run (_embed_init_python linux venv good) process_start).

(** The process after a boot and a start with one argument. *)
Definition started : World :=
  world_of (run (_embed_sim_init good 1 ["testbench"]) booted).

(** An argument whose second byte is invalid in the locale. *)
Definition invalid_arg : string := String "t" (String (ascii_of_nat 255) "b").

End Scenario.

(** ** Further observations *)

(** The name under which [logStrToLevel] holds a level. *)
Definition level_name (level : gpi_log_level) : string :=
  match level with
  | GPICritical => "CRITICAL"
  | GPIError => "ERROR"
  | GPIWarning => "WARNING"
  | GPIInfo => "INFO"
  | GPIDebug => "DEBUG"
  | GPITrace => "TRACE"
  end.

Definition is_set_level (e : Event) : bool :=
  match e with E_py_gpi_logger_set_level _ => true | _ => false end.

Definition is_logger_initialize (e : Event) : bool :=
  match e with E_py_gpi_logger_initialize _ _ => true | _ => false end.

Definition is_entry_call (e : Event) : bool :=
  match e with E_PyObject_CallFunctionObjArgs _ _ => true | _ => false end.

Definition is_PyMem_RawFree (e : Event) : bool :=
  match e with E_PyMem_RawFree => true | _ => false end.

(** The events of the attach wait: its three reports and the sleep. *)
Definition is_attach_event (e : Event) : bool :=
  match e with
  | E_LOG GPIError fmt =>
      String.eqb fmt "COCOTB_ATTACH only needs to be set to ~30 seconds"
      || String.eqb fmt "COCOTB_ATTACH must be set to an integer base 10 or omitted"
      || String.eqb fmt "Waiting for %lu seconds - attach to PID %d with your debugger"
  | E_sleep _ => true
  | _ => false
  end.

(** Whether [s] is empty or starts with a character that is no digit. *)
Definition not_digit_first (s : string) : bool :=
  match s with
  | String c _ => if Libc.digit c is Some _ then false else true
  | EmptyString => true
  end.

(** Whether [_embed_init_python] gets the runtime initialized: the
    interpreter path is set, decodes and fits the buffer, and the
    initialization of the API in use succeeds. *)
Definition initializes (P : Platform) (env : gmap string string)
    (py : Runtime.CPython) : bool :=
  match env !! "PYTHON_BIN" with
  | Some path_c =>
      match Runtime.Py_DecodeLocale py path_c with
      | Some path_temp =>
          let n := PATH_MAX P * sizeof_wchar_t P / sizeof_wchar_t P in
          let path := Libc.wcsncpy path_temp n in
          if negb (nth (n - 1) path 0 =? 0)%Z then false
          else if (0x3080000 <=? PY_VERSION_HEX P)%Z then
            if PyStatus_Exception (Runtime.PyConfig_SetArgv py) then false
            else if PyStatus_Exception
                      (Runtime.Py_InitializeFromConfig py (Libc.wcs path))
            then false else true
          else Runtime.Py_Initialize py (Libc.wcs path)
      | None => false
      end
  | None => false
  end.

(** The process ended inside [PyErr_Print], which found SystemExit pending:
    the dump is the last thing it did. *)
Definition exits {A} (o : Outcome A) : Prop :=
  match o with
  | Terminates Py_Exit _ t => last t = Some E_PyErr_Print
  | _ => False
  end.

(** The call whose failure is dumped: the event just before the first
    [PyErr_Print]. *)
Fixpoint dumped (t : list Event) : option Event :=
  match t with
  | e :: t' =>
      match t' with
      | E_PyErr_Print :: _ => Some e
      | _ => dumped t'
      end
  | [] => None
  end.

(** The runtime gives [_embed_sim_init] all it asks for before the call of
    the entry point: the entry module, the entry point [entry_point] and the
    three hooks resolve, [argc] counts arguments that [_argv] holds, and
    there is memory for the argument list and its items. *)
Definition resolves (py : Runtime.CPython) (argc : Z) (_argv : list string)
    (entry_point : PyObj) : Prop :=
  ∃ m t entry_module,
    Runtime.PyImport_ImportModule py "pygpi.entry" = Some m ∧
    Runtime.PyObject_CallMethod py m "load_entry" = Some t ∧
    Runtime.PyArg_ParseTuple_OO py t = Some (entry_module, entry_point) ∧
    is_Some (Runtime.PyObject_GetAttrString py entry_module "_log_from_c") ∧
    is_Some (Runtime.PyObject_GetAttrString py entry_module "_filter_from_c") ∧
    is_Some (Runtime.PyObject_GetAttrString py entry_module "_sim_event") ∧
    (0 ≤ argc)%Z ∧
    Z.to_nat argc ≤ length _argv ∧
    is_Some (Runtime.PyList_New py argc) ∧
    ∀ i str, _argv !! i = Some str → Runtime.PyUnicode_New py i str = true.

(** A call of the simulator into the bridge after the boot. *)
Inductive HostCall :=
| call_start (py : Runtime.CPython) (argc : Z) (_argv : list string)
| call_notify (py : Runtime.CPython) (msg : option string)
| call_cleanup.

(** The process after a call, and after a sequence of calls. *)
Definition host_call (c : HostCall) (w : World) : World :=
  match c with
  | call_start py argc _argv => world_of (run (_embed_sim_init py argc _argv) w)
  | call_notify py msg => world_of (run (_embed_sim_event py msg) w)
  | call_cleanup => world_of (run _embed_sim_cleanup w)
  end.

Definition after (calls : list HostCall) (w : World) : World :=
  foldl (λ w c, host_call c w) w calls.

Module Cases.

(** A runtime in which everything succeeds, but for the allocation of the
    decoded arguments and the call of the event hook. *)
Definition runtime (unicode_ok : nat → bool) (event_result : option PyObj)
  : Runtime.CPython :=
  {| Runtime.Py_DecodeLocale := λ s,
       Some (Runtime.decode_surrogateescape
               Scenario.C_locale (String.length s) (list_ascii_of_string s));
     Runtime.PyConfig_SetArgv := Scenario.status false;
     Runtime.Py_InitializeFromConfig := λ _, Scenario.status false;
     Runtime.Py_Initialize := λ _, true;
     Runtime.PySys_GetObject := λ _, None;
     Runtime.PyUnicode_AsWideChar := λ _, None;
     Runtime.PyEval_SaveThread := 7%N;
     Runtime.PyImport_ImportModule := λ _, Some 10%N;
     Runtime.PyObject_CallMethod := λ _ _, Some 11%N;
     Runtime.PyArg_ParseTuple_OO := λ _, Some (12%N, 13%N);
     Runtime.PyObject_GetAttrString := λ _ name,
       if String.eqb name "_sim_event" then Some 16%N
       else if String.eqb name "_log_from_c" then Some 14%N
       else Some 15%N;
     Runtime.PyList_New := λ _, Some 20%N;
     Runtime.PyUnicode_New := λ i _, unicode_ok i;
     Runtime.locale := Scenario.C_locale;
     Runtime.PyObject_CallFunctionObjArgs := λ _ _, Some 30%N;
     Runtime.PyObject_CallFunction := λ _ _, event_result;
     Runtime.SystemExit := λ _, false |}.

Definition no_memory : Runtime.CPython := runtime (λ i, i <? 1) (Some 31%N).
Definition event_raises : Runtime.CPython := runtime (λ _, true) None.

Definition long_path : gmap string string :=
  {[ "PYTHON_BIN" := "/opt/venv/python" ]}.

(** The runtime [py], where the failed calls that [is_exit] selects leave a
    SystemExit. *)
Definition with_SystemExit (is_exit : Event → bool) (py : Runtime.CPython)
  : Runtime.CPython :=
  {| Runtime.Py_DecodeLocale := Runtime.Py_DecodeLocale py;
     Runtime.PyConfig_SetArgv := Runtime.PyConfig_SetArgv py;
     Runtime.Py_InitializeFromConfig := Runtime.Py_InitializeFromConfig py;
     Runtime.Py_Initialize := Runtime.Py_Initialize py;
     Runtime.PySys_GetObject := Runtime.PySys_GetObject py;
     Runtime.PyUnicode_AsWideChar := Runtime.PyUnicode_AsWideChar py;
     Runtime.PyEval_SaveThread := Runtime.PyEval_SaveThread py;
     Runtime.PyImport_ImportModule := Runtime.PyImport_ImportModule py;
     Runtime.PyObject_CallMethod := Runtime.PyObject_CallMethod py;
     Runtime.PyArg_ParseTuple_OO := Runtime.PyArg_ParseTuple_OO py;
     Runtime.PyObject_GetAttrString := Runtime.PyObject_GetAttrString py;
     Runtime.PyList_New := Runtime.PyList_New py;
     Runtime.PyUnicode_New := Runtime.PyUnicode_New py;
     Runtime.locale := Runtime.locale py;
     Runtime.PyObject_CallFunctionObjArgs :=
       Runtime.PyObject_CallFunctionObjArgs py;
     Runtime.PyObject_CallFunction := Runtime.PyObject_CallFunction py;
     Runtime.SystemExit := is_exit |}.

(** The runtime [py] in the locale [cd]. *)
Definition with_locale (cd : Runtime.Codec) (py : Runtime.CPython)
  : Runtime.CPython :=
  {| Runtime.Py_DecodeLocale := Runtime.Py_DecodeLocale py;
     Runtime.PyConfig_SetArgv := Runtime.PyConfig_SetArgv py;
     Runtime.Py_InitializeFromConfig := Runtime.Py_InitializeFromConfig py;
     Runtime.Py_Initialize := Runtime.Py_Initialize py;
     Runtime.PySys_GetObject := Runtime.PySys_GetObject py;
     Runtime.PyUnicode_AsWideChar := Runtime.PyUnicode_AsWideChar py;
     Runtime.PyEval_SaveThread := Runtime.PyEval_SaveThread py;
     Runtime.PyImport_ImportModule := Runtime.PyImport_ImportModule py;
     Runtime.PyObject_CallMethod := Runtime.PyObject_CallMethod py;
     Runtime.PyArg_ParseTuple_OO := Runtime.PyArg_ParseTuple_OO py;
     Runtime.PyObject_GetAttrString := Runtime.PyObject_GetAttrString py;
     Runtime.PyList_New := Runtime.PyList_New py;
     Runtime.PyUnicode_New := Runtime.PyUnicode_New py;
     Runtime.locale := cd;
     Runtime.PyObject_CallFunctionObjArgs :=
       Runtime.PyObject_CallFunctionObjArgs py;
     Runtime.PyObject_CallFunction := Runtime.PyObject_CallFunction py;
     Runtime.SystemExit := Runtime.SystemExit py |}.

(** Runtimes in which a failure is a SystemExit: every failure of a start
    with no event hook or with a failing entry point, and the failure of the
    event hook. *)
Definition no_sim_event_exits : Runtime.CPython :=
  with_SystemExit (λ _, true) Scenario.no_sim_event.
Definition entry_exits : Runtime.CPython :=
  with_SystemExit (λ _, true) Scenario.entry_raises.
Definition event_exits : Runtime.CPython :=
  with_SystemExit (λ _, true) event_raises.

(** A locale in which two byte sequences denote the same character, as the
    duplicate characters of CP932 do.  Here it is a lenient UTF-8: the
    decoder takes the two bytes 110xxxxx 10yyyyyy for the code point
    xxxxxyyyyyy without rejecting the overlong forms, and the encoder writes
    the shortest form. *)
Definition lenient_utf8 : Runtime.Codec :=
  {| Runtime.mbrtowc := λ s,
       match s with
       | b1 :: rest =>
           let c1 := Runtime.byte_of b1 in
           if (c1 <? 0x80)%Z then Some (c1, 1)
           else if ((0xC0 <=? c1) && (c1 <? 0xE0))%Z then
             match rest with
             | b2 :: _ =>
                 let c2 := Runtime.byte_of b2 in
                 if ((0x80 <=? c2) && (c2 <? 0xC0))%Z
                 then Some (((c1 - 0xC0) * 64 + (c2 - 0x80))%Z, 2)
                 else None
             | [] => None
             end
           else None
       | [] => None
       end;
     Runtime.wcrtomb := λ c,
       if ((0 <=? c) && (c <? 0x80))%Z then Some [Runtime.ascii_of c]
       else if ((0x80 <=? c) && (c <? 0x800))%Z then
         Some [Runtime.ascii_of (0xC0 + c / 64);
               Runtime.ascii_of (0x80 + c mod 64)]
       else None |}.

Definition lenient : Runtime.CPython := with_locale lenient_utf8 Scenario.good.

(** The bytes C1 81: the overlong form of "A". *)
Definition overlong_A : string :=
  String (ascii_of_nat 193) (String (ascii_of_nat 129) EmptyString).

End Cases.

(** * Properties *)

(** ** Symbolic execution *)

(** Unfolds the statements down to the answers of the collaborators. *)
Ltac exec :=
  cbv beta iota zeta delta
    [run events_of world_of returned
     mbind mret Stmt_bind Stmt_ret stmt_bind stmt_ret
     skip return_ crash emit read modify assert DEFER call if_null
     LOG_INFO LOG_ERROR to_python to_simulator
     py_gpi_logger_set_level py_gpi_logger_initialize py_gpi_logger_finalize
     PyGILState_Ensure PyGILState_Release PyErr_Print Py_DECREF Py_XDECREF
     Py_DecRef Py_DecodeLocale PyMem_RawFree PyConfig_SetArgv PyConfig_Clear
     Py_InitializeFromConfig Py_Initialize PySys_SetArgvEx PySys_GetObject
     PyUnicode_AsWideChar PyEval_SaveThread Py_Finalize PyImport_ImportModule
     PyObject_CallMethod PyArg_ParseTuple_OO PyObject_GetAttrString PyList_New
     PyUnicode_DecodeLocale PyList_SetItem PyObject_CallFunctionObjArgs
     PyObject_CallFunction strtoul sleep status_failed
     set_gtstate set_pEventFn set_interpreter_path set_errno
     set_Py_IsInitialized set_gil_held set_token
     gtstate pEventFn interpreter_path errno Py_IsInitialized gil_held token];
  cbn [app negb Z.eqb Pos.eqb].

(** The answers a run depends on. *)
Ltac oracle x :=
  lazymatch x with
  | Runtime.Py_DecodeLocale _ _ => idtac
  | Runtime.PyConfig_SetArgv _ => idtac
  | Runtime.Py_InitializeFromConfig _ _ => idtac
  | Runtime.Py_Initialize _ _ => idtac
  | Runtime.PySys_GetObject _ _ => idtac
  | Runtime.PyUnicode_AsWideChar _ _ => idtac
  | Runtime.PyImport_ImportModule _ _ => idtac
  | Runtime.PyObject_CallMethod _ _ _ => idtac
  | Runtime.PyArg_ParseTuple_OO _ _ => idtac
  | Runtime.PyObject_GetAttrString _ _ _ => idtac
  | Runtime.PyList_New _ _ => idtac
  | Runtime.PyUnicode_New _ _ _ => idtac
  | Runtime.PyObject_CallFunctionObjArgs _ _ _ => idtac
  | Runtime.PyObject_CallFunction _ _ _ => idtac
  | Runtime.SystemExit _ _ => idtac
  | Runtime.decode_locale _ _ _ => idtac
  | PyStatus_Exception _ => idtac
  | err_msg _ => idtac
  | func _ => idtac
  | lookup _ _ => idtac
  | Libc.wcs_differ _ _ => idtac
  | Z.ltb _ _ => idtac
  | Z.leb _ _ => idtac
  | Z.eqb _ _ => idtac
  | negb _ => idtac
  end.

(** Case analysis on the next answer, in program order: an answer that
    depends on an earlier one only appears once that one is known. *)
Ltac answer :=
  match goal with
  | |- context [match ?x with _ => _ end] =>
      oracle x; let H := fresh "Hans" in destruct x eqn:H;
      repeat match goal with p : (_ * _)%type |- _ => destruct p end; exec
  end.

(** Membership in an explicit list of events. *)
Ltac mem :=
  repeat match goal with
  | H : _ ∈ (_ ++ _) |- _ => apply elem_of_app in H as [H|H]
  | H : _ ∈ (_ :: _) |- _ => apply elem_of_cons in H as [H|H]
  | H : _ ∈ [] |- _ => apply elem_of_nil in H; destruct H
  | F : Forall (λ e, is_marshal e = true) ?t, H : (?e ∈ ?t) |- _ =>
      let F' := fresh in
      pose proof (proj1 (Forall_forall _ _) F _ H) as F'; cbn in F'; clear H
  end.

Ltac found :=
  first [ apply list_elem_of_here
        | apply list_elem_of_further; found
        | apply elem_of_app; first [left; found | right; found] ].

(** The events before [tl] in a list of events that ends with [tl]. *)
Ltac prefix l tl :=
  lazymatch l with
  | tl => constr:(@nil Event)
  | ?e :: ?l' => let p := prefix l' tl in constr:(e :: p)
  end.

(** ** The argument loop *)

Lemma decode_argv_shape py argv n : ∀ i items w fl w' t,
  decode_argv py argv n i items w = (fl, w', t) →
  w' = w ∧ Forall (λ e, is_marshal e = true) t ∧
  (∀ w0, decode_argv py argv n i items w0 = (fl, w0, t)) ∧
  match fl with
  | Next _ => True
  | Return r => r = (-1)%Z
  | Crash why =>
      (why = OutOfBounds ∧ length argv < i + n)
      ∨ (why = Py_Exit ∧ last t = Some E_PyErr_Print)
  end.
Proof.
  induction n as [|n IH]; intros i items w fl w' t; cbn [decode_argv].
  - exec. intros [= <- <- <-]. repeat split; auto.
  - destruct (argv !! i) as [arg|] eqn:Harg;
      [|exec; intros [= <- <- <-]; repeat split; auto;
        left; split; [done|]; apply lookup_ge_None in Harg; lia].
    apply lookup_lt_Some in Harg.
    exec. repeat answer.
    + destruct (decode_argv py argv n (S i) _ w) as [[fl1 w1] t1] eqn:Hrec.
      apply IH in Hrec as (-> & Ht & Hw & Hfl).
      intros [= <- <- <-]. repeat split; auto.
      * intros w0. rewrite Hw. reflexivity.
      * destruct fl1; [auto|auto|].
        destruct Hfl as [[-> Hlen]|[-> Hlast]]; [left; split; [done|lia]|].
        right. split; [done|].
        destruct t1 as [|e1 t1]; [discriminate|].
        change (last (E_PyUnicode_DecodeLocale arg "surrogateescape"
                        :: E_PyList_SetItem i p :: e1 :: t1))
          with (last (e1 :: t1)).
        exact Hlast.
    + intros [= <- <- <-]. repeat split; auto.
    + intros [= <- <- <-]. repeat split; auto.
    + intros [= <- <- <-]. repeat split; auto.
    + intros [= <- <- <-]. repeat split; auto.
Qed.

Lemma decode_locale_surrogateescape cd str :
  Runtime.decode_locale cd str "surrogateescape" = Some (marshal cd str).
Proof. reflexivity. Qed.

Lemma decode_argv_items py argv n : ∀ i items w items' w' t,
  length items = i + n →
  decode_argv py argv n i items w = (Next items', w', t) →
  items' = take i items
           ++ ((λ s, Some (marshal (Runtime.locale py) s)) <$> take n (drop i argv)).
Proof.
  induction n as [|n IH]; intros i items w items' w' t Hlen; cbn [decode_argv].
  - exec. intros [= <- <- <-]. cbn. rewrite app_nil_r, take_ge; [done|lia].
  - destruct (argv !! i) as [arg|] eqn:Harg; [|exec; discriminate].
    exec. rewrite decode_locale_surrogateescape.
    destruct (Runtime.PyUnicode_New py i arg); exec;
      [|destruct (Runtime.SystemExit _ _); discriminate].
    destruct (decode_argv py argv n (S i) _ w) as [[fl1 w1] t1] eqn:Hrec.
    intros [= -> <- <-].
    apply IH in Hrec; [|rewrite length_insert; lia].
    rewrite Hrec.
    rewrite (take_S_r _ _ (Some (marshal (Runtime.locale py) arg)))
      by (apply list_lookup_insert_eq; lia).
    rewrite take_insert_ge by lia.
    rewrite (drop_S _ _ _ Harg). cbn. rewrite <- app_assoc. reflexivity.
Qed.

Lemma decode_argv_succeeds py argv n : ∀ i items w,
  i + n ≤ length argv →
  (∀ j str, argv !! j = Some str → Runtime.PyUnicode_New py j str = true) →
  ∃ items' t, decode_argv py argv n i items w = (Next items', w, t).
Proof.
  induction n as [|n IH]; intros i items w Hlen Hmem; cbn [decode_argv].
  - exec. eauto.
  - destruct (argv !! i) as [arg|] eqn:Harg;
      [|apply lookup_ge_None in Harg; lia].
    exec. rewrite decode_locale_surrogateescape, (Hmem _ _ Harg). exec.
    destruct (IH (S i) (<[i:=Some (marshal (Runtime.locale py) arg)]> items) w)
      as (items' & t & ->); [lia|exact Hmem|].
    eauto.
Qed.

(** The loop, as it stands in [_embed_sim_init]. *)
Ltac loop :=
  match goal with
  | |- context [decode_argv ?py ?a ?n ?i ?l ?w] =>
      let H := fresh "Hloop" in
      let Hany := fresh "Hany" in
      let fl := fresh "fl" in
      destruct (decode_argv py a n i l w) as [[fl ?] ?] eqn:H;
      pose proof (decode_argv_shape _ _ _ _ _ _ _ _ _ H) as (-> & ? & Hany & ?);
      rewrite ?Hany; clear Hany;
      destruct fl; exec
  end.

(** Every way through [_embed_sim_init]. *)
Ltac start_cases :=
  unfold _embed_sim_init; exec; repeat answer; try loop; repeat answer.

(** ** PEP 383 *)

Lemma ascii_of_byte_of b : Runtime.ascii_of (Runtime.byte_of b) = b.
Proof.
  unfold Runtime.ascii_of, Runtime.byte_of.
  rewrite N2Z.id. apply ascii_N_embedding.
Qed.

Lemma byte_of_bounded b : (0 ≤ Runtime.byte_of b < 256)%Z.
Proof.
  unfold Runtime.byte_of. pose proof (N_ascii_bounded b). lia.
Qed.

Section Roundtrip.
Context (cd : Runtime.Codec) (Hcd : canonical cd).

Lemma encode_decode_surrogateescape n : ∀ s,
  length s ≤ n →
  Runtime.encode_surrogateescape cd (Runtime.decode_surrogateescape cd n s)
  = Some s.
Proof.
  induction n as [|n IH]; intros s Hlen.
  - destruct s; [reflexivity|cbn in Hlen; lia].
  - destruct s as [|b rest]; [reflexivity|].
    cbn [Runtime.decode_surrogateescape].
    destruct (Runtime.mbrtowc cd (b :: rest)) as [[c k]|] eqn:Hc.
    + destruct (mbrtowc_wcrtomb cd Hcd _ _ _ Hc) as [Hk Hw].
      cbn [Runtime.encode_surrogateescape].
      rewrite (mbrtowc_no_escape cd Hcd _ _ _ Hc), Hw. cbn.
      rewrite IH by (rewrite length_drop; cbn in *; lia).
      cbn. rewrite take_drop. reflexivity.
    + assert (0x80 ≤ Runtime.byte_of b)%Z as Hhigh.
      { destruct (Z_lt_le_dec (Runtime.byte_of b) 0x80) as [Hlow|]; [|done].
        destruct (mbrtowc_ascii cd Hcd b rest Hlow Hc). }
      pose proof (byte_of_bounded b).
      cbn [Runtime.encode_surrogateescape].
      replace (Runtime.is_escape (0xDC00 + Runtime.byte_of b)) with true
        by (unfold Runtime.is_escape; symmetry; apply andb_true_intro; lia).
      replace (0xDC00 + Runtime.byte_of b - 0xDC00)%Z
        with (Runtime.byte_of b) by lia.
      rewrite ascii_of_byte_of. cbn.
      rewrite IH by (cbn in Hlen; lia). reflexivity.
Qed.

Lemma encode_marshal str :
  Runtime.encode_locale cd (marshal cd str) = Some str.
Proof.
  unfold Runtime.encode_locale, marshal.
  rewrite encode_decode_surrogateescape by done.
  cbn. rewrite string_of_list_ascii_of_string. reflexivity.
Qed.

Lemma unmarshal_marshal (argv : list string) :
  unmarshal cd ((λ s, Some (marshal cd s)) <$> argv) = Some argv.
Proof.
  unfold unmarshal. apply mapM_Some. induction argv as [|s argv IH]; cbn.
  - constructor.
  - constructor; [apply encode_marshal|exact IH].
Qed.

End Roundtrip.

Lemma C_locale_canonical : canonical Scenario.C_locale.
Proof.
  split.
  - intros [|b s] c k; cbn; [discriminate|].
    destruct (Runtime.byte_of b <? 128)%Z eqn:Hb; [|discriminate].
    intros [= <- <-]. split; [lia|].
    pose proof (byte_of_bounded b).
    replace ((0 <=? Runtime.byte_of b)%Z && (Runtime.byte_of b <? 128)%Z)
      with true by (symmetry; apply andb_true_intro; lia).
    rewrite ascii_of_byte_of. reflexivity.
  - intros [|b s] c k; cbn; [discriminate|].
    destruct (Runtime.byte_of b <? 128)%Z eqn:Hb; [|discriminate].
    intros [= <- <-]. unfold Runtime.is_escape.
    apply andb_false_intro1. lia.
  - intros b s Hb. cbn.
    replace (Runtime.byte_of b <? 128)%Z with true by (symmetry; lia).
    discriminate.
Qed.

(** ** Crossings *)

Lemma crossing_app t1 : ∀ t2 c,
  crossing (t1 ++ t2) c = crossing t1 c ≫= crossing t2.
Proof.
  induction t1 as [|e t1 IH]; intros t2 c; cbn; [reflexivity|].
  destruct (crossing_step c e); [apply IH|reflexivity].
Qed.

Lemma crossing_marshal t n :
  Forall (λ e, is_marshal e = true) t →
  crossing t (Interpreter, S n) = Some (Interpreter, S n).
Proof.
  induction 1 as [|e t He _ IH]; cbn; [reflexivity|].
  destruct e; try discriminate; cbn; exact IH.
Qed.

(** ** Boot *)

(** The part of [_embed_init_python] before the attach wait: either it ends
    the call, having saved no thread state, or it reaches the attach wait,
    having initialized the runtime, saved the thread state and handed control
    back, without touching [errno] or sleeping. *)
Lemma boot_cases P env py w :
  gtstate w = None →
  ((E_PyEval_SaveThread ∉ events_of (run (_embed_init_python P env py) w)) ∧
   gtstate (world_of (run (_embed_init_python P env py) w)) = None ∧
   Forall (λ e, is_sleep e = false)
     (events_of (run (_embed_init_python P env py) w)) ∧
   (∀ expr w' t,
     run (_embed_init_python P env py) w ≠ Terminates (AssertionFailed expr) w' t) ∧
   E_to_python ∈ events_of (run (_embed_init_python P env py) w) ∧
   (∀ a w' t,
     run (_embed_init_python P env py) w = Returns a w' t →
     token w' = Interpreter) ∧
   Forall (λ e, is_attach_event e = false)
     (events_of (run (_embed_init_python P env py) w)))
  ∨
  (∃ w1 pre,
     run (_embed_init_python P env py) w
     = match run (attach_wait P env) w1 with
       | Returns a w2 t => Returns a w2 (pre ++ t)
       | Terminates why w2 t => Terminates why w2 (pre ++ t)
       end ∧
     E_PyEval_SaveThread ∈ pre ∧
     Forall (λ e, is_sleep e = false) pre ∧
     gtstate w1 = Some (Runtime.PyEval_SaveThread py) ∧
     Py_IsInitialized w1 = true ∧
     token w1 = Host ∧
     errno w1 = errno w ∧
     E_to_python ∈ pre).
Proof.
  destruct w as [gt fn path e init gil tok]. cbn [gtstate]. intros ->.
  unfold _embed_init_python, get_interpreter_path. exec.
  repeat answer.
  all: try congruence.
  all: try (left; repeat split;
            solve [ intros Hin; mem; discriminate
                  | found
                  | repeat constructor
                  | discriminate
                  | intros ? ? ? [= <- <- <-]; reflexivity ]).
  all: right.
  all: match goal with
       | |- context [attach_wait ?P0 ?e0 ?w1] =>
           exists w1; unfold run;
           destruct (attach_wait P0 e0 w1) as [[fl2 w2] t2]
       end.
  all: match goal with
       | |- ∃ pre, _ = match match ?fl with _ => _ end with _ => _ end ∧ _ =>
           match goal with
           | |- context [Returns _ _ ?l] =>
               let p := prefix l t2 in exists p
           end
       end.
  all: split; [destruct fl2; reflexivity|].
  all: split; [found|].
  all: split; [repeat constructor|].
  all: repeat split.
  all: found.
Qed.

Lemma boot_asserts P env py w tstate :
  gtstate w = Some tstate →
  run (_embed_init_python P env py) w
  = Terminates (AssertionFailed "!gtstate") w [].
Proof.
  destruct w as [gt fn path e init gil tok]. cbn [gtstate]. intros ->.
  reflexivity.
Qed.

Lemma attach_wait_run P env w pause :
  env !! "COCOTB_ATTACH" = Some pause →
  run (attach_wait P env) w
  = Returns tt (set_errno (parsed_pause P pause w).2 w)
      (let '(v, e) := parsed_pause P pause w in
       if (e =? ERANGE)%Z || (UINT_MAX <=? v)%Z then
         [E_LOG GPIError "COCOTB_ATTACH only needs to be set to ~30 seconds"]
       else if (negb (e =? 0)%Z && (v =? 0)%Z) || (v <=? 0)%Z then
         [E_LOG GPIError "COCOTB_ATTACH must be set to an integer base 10 or omitted"]
       else
         [E_LOG GPIError "Waiting for %lu seconds - attach to PID %d with your debugger";
          E_sleep (v mod (UINT_MAX + 1))]).
Proof.
  intros Hpause. destruct w as [gt fn path e init gil tok].
  unfold attach_wait, parsed_pause. rewrite Hpause. exec.
  destruct (Libc.strtoul _ _ pause e) as [v e']. exec.
  destruct ((e' =? ERANGE)%Z || (UINT_MAX <=? v)%Z); [reflexivity|].
  destruct (negb (e' =? 0)%Z && (v =? 0)%Z || (v <=? 0)%Z); reflexivity.
Qed.

Lemma attach_wait_returns P env w :
  ∃ e t, run (attach_wait P env) w = Returns tt (set_errno e w) t.
Proof.
  destruct (env !! "COCOTB_ATTACH") as [pause|] eqn:Hpause.
  - rewrite (attach_wait_run _ _ _ _ Hpause). eauto.
  - exists (errno w), []. unfold attach_wait. rewrite Hpause.
    destruct w; reflexivity.
Qed.

(** A boot that saved the thread state leaves the runtime initialized and
    the token with the host: the state the later calls start from. *)
Lemma boot_initializes P env py w :
  gtstate w = None →
  E_PyEval_SaveThread ∈ events_of (run (_embed_init_python P env py) w) →
  returned (run (_embed_init_python P env py) w) = Some tt ∧
  Py_IsInitialized (world_of (run (_embed_init_python P env py) w)) = true ∧
  gtstate (world_of (run (_embed_init_python P env py) w))
  = Some (Runtime.PyEval_SaveThread py) ∧
  token (world_of (run (_embed_init_python P env py) w)) = Host.
Proof.
  intros Hgt Hsaved.
  destruct (boot_cases P env py w Hgt)
    as [(Hno & _)|(w1 & pre & Hrun & _ & _ & Hgt1 & Hinit & Htok & _)];
    [destruct (Hno Hsaved)|].
  destruct (attach_wait_returns P env w1) as (e & t & Hwait).
  rewrite Hrun, Hwait. destruct w1. cbn in *. auto.
Qed.

Lemma strtoul_not_numeric ulong_max einval s e :
  Libc.numeric s = false →
  Libc.strtoul ulong_max einval s e = (0%Z, if einval then EINVAL else e).
Proof.
  unfold Libc.numeric, Libc.strtoul.
  destruct (Libc.sign (Libc.skip_spaces s)) as [neg s2]. cbn.
  destruct (Libc.digits None s2); [discriminate|reflexivity].
Qed.

Lemma strtoul_zero ulong_max einval e :
  Libc.strtoul ulong_max einval "0" e
  = if (ulong_max <? 0)%Z then (ulong_max, ERANGE) else (0%Z, e).
Proof. reflexivity. Qed.

(** C1 (the code departs from the claim).  When [PYTHON_BIN] is absent,
    [get_interpreter_path] logs the informational note that the system-wide
    interpreter is used and returns -1, so that [_embed_init_python] returns
    right after [to_python]: the runtime is never initialized, no thread
    state is saved, [to_simulator] is not called and the execution token is
    left with the interpreter. *)
Theorem boot_without_PYTHON_BIN_skips_runtime P env py w :
  env !! "PYTHON_BIN" = None →
  gtstate w = None →
  let o := run (_embed_init_python P env py) w in
  returned o = Some tt ∧
  E_LOG GPIInfo "Did not detect Python virtual environment. Using system-wide Python interpreter"
    ∈ events_of o ∧
  (∀ program_name, E_Py_Initialize program_name ∉ events_of o) ∧
  (E_to_simulator ∉ events_of o) ∧
  Py_IsInitialized (world_of o) = Py_IsInitialized w ∧
  gtstate (world_of o) = None ∧
  token (world_of o) = Interpreter.
Proof.
  destruct w as [gt fn path e init gil tok]. cbn [gtstate]. intros Hbin ->.
  unfold _embed_init_python, get_interpreter_path. rewrite Hbin. exec.
  repeat answer; repeat split; try found; intros; intros Hin; mem; discriminate.
Qed.

Lemma boot_without_PYTHON_BIN_witness :
  let o := run (_embed_init_python Scenario.linux ∅ Scenario.good)
               Scenario.process_start in
  returned o = Some tt ∧ Py_IsInitialized (world_of o) = false.
Proof.
  pose proof (boot_without_PYTHON_BIN_skips_runtime
                Scenario.linux ∅ Scenario.good Scenario.process_start
                eq_refl eq_refl) as H.
  cbv zeta in *. destruct H as (H1 & _ & _ & _ & H2 & _). split; assumption.
Defined.

(** C5 (amended).  A second call of [_embed_init_python] trips the assertion
    on [gtstate], and terminates the process without any other effect, exactly
    when the first call got as far as saving the thread state.  After a first
    call that saved none, [gtstate] is still NULL, and the token is with the
    interpreter if that call returned; the assertion of the second call then
    holds, and the second call goes on to its handoff [to_python]. *)
Theorem second_boot_after_saved_thread_state P env py w :
  gtstate w = None →
  let o1 := run (_embed_init_python P env py) w in
  ∀ P' env' py',
    let o2 := run (_embed_init_python P' env' py') (world_of o1) in
    (E_PyEval_SaveThread ∈ events_of o1 →
     o2 = Terminates (AssertionFailed "!gtstate") (world_of o1) []) ∧
    (E_PyEval_SaveThread ∉ events_of o1 →
     gtstate (world_of o1) = None ∧
     (returned o1 = Some tt → token (world_of o1) = Interpreter) ∧
     (∀ expr w2 t, o2 ≠ Terminates (AssertionFailed expr) w2 t) ∧
     E_to_python ∈ events_of o2).
Proof.
  intros Hgt o1 P' env' py' o2. subst o1 o2.
  destruct (boot_cases P env py w Hgt)
    as [(Hno & Hgt1 & _ & _ & _ & Htok & _)
       |(w1 & pre & Hrun & Hin & _ & Hgt1 & _)].
  - split; [intros Hin; destruct (Hno Hin)|intros _].
    split; [exact Hgt1|]. split.
    { destruct (run (_embed_init_python P env py) w) as [a w' t|] eqn:Hrun;
        [|discriminate].
      intros _. exact (Htok _ _ _ eq_refl). }
    destruct (boot_cases P' env' py' _ Hgt1)
      as [(_ & _ & _ & Hok & Hpy & _)
         |(w1 & pre & Hrun & _ & _ & _ & _ & _ & _ & Hpy)];
      [split; assumption|].
    rewrite Hrun.
    destruct (attach_wait_returns P' env' w1) as (e & t3 & ->).
    split; [discriminate|]. cbn [events_of].
    apply elem_of_app. left. exact Hpy.
  - destruct (attach_wait_returns P env w1) as (e & t3 & Hwait).
    rewrite Hrun, Hwait. cbn [world_of events_of].
    split; [intros _|intros Hno; destruct Hno; apply elem_of_app; left; exact Hin].
    destruct w1 as [gt fn path e1 init gil tok]. cbn in Hgt1. subst gt.
    reflexivity.
Qed.

Lemma second_boot_after_saved_thread_state_witness :
  run (_embed_init_python Scenario.linux Scenario.venv Scenario.good)
      Scenario.booted
  = Terminates (AssertionFailed "!gtstate") Scenario.booted [].
Proof.
  refine (proj1 (second_boot_after_saved_thread_state
                   Scenario.linux Scenario.venv Scenario.good
                   Scenario.process_start eq_refl
                   Scenario.linux Scenario.venv Scenario.good) _).
  vm_compute. repeat constructor.
Defined.

(** A first boot whose runtime initialization fails returns with [gtstate]
    still NULL and the token with the interpreter.  The assertion of a second
    boot then holds: the second call is not ended by it, and goes on to its
    handoff [to_python]. *)
Lemma second_boot_counterexample :
  let first := run (_embed_init_python Scenario.linux Scenario.venv
                      Scenario.init_fails) Scenario.process_start in
  let second := run (_embed_init_python Scenario.linux Scenario.venv
                       Scenario.good) (world_of first) in
  returned first = Some tt ∧
  gtstate (world_of first) = None ∧
  token (world_of first) = Interpreter ∧
  second ≠ Terminates (AssertionFailed "!gtstate") (world_of first) [] ∧
  E_to_python ∈ events_of second.
Proof.
  vm_compute. repeat split; [discriminate|repeat constructor].
Qed.

(** C8 (amended).  In an execution of [_embed_init_python] that reaches the
    attach wait (the runtime was initialized and the thread state saved) with
    [COCOTB_ATTACH] set: if the value parses to 2 and [errno] is not ERANGE
    after the parse, the last two events are the announcement and [sleep(2)],
    and nothing slept before; if the value is "0" or not numeric, the call
    ends with an error report and [sleep] is never invoked. *)
Theorem attach_wait_after_boot P env py w pause :
  env !! "COCOTB_ATTACH" = Some pause →
  let o := run (_embed_init_python P env py) w in
  E_PyEval_SaveThread ∈ events_of o →
  returned o = Some tt ∧
  ((parsed_pause P pause w).1 = 2%Z →
   (parsed_pause P pause w).2 ≠ ERANGE →
   ∃ pre,
     events_of o
     = pre ++ [E_LOG GPIError "Waiting for %lu seconds - attach to PID %d with your debugger";
               E_sleep 2] ∧
     Forall (λ e, is_sleep e = false) pre) ∧
  (pause = "0" ∨ Libc.numeric pause = false →
   Forall (λ e, is_sleep e = false) (events_of o) ∧
   ∃ msg, last (events_of o) = Some (E_LOG GPIError msg)).
Proof.
  intros Hpause o Hsaved. subst o.
  destruct (gtstate w) as [tstate|] eqn:Hgt.
  { rewrite (boot_asserts _ _ _ _ _ Hgt) in Hsaved. cbn in Hsaved. mem. }
  destruct (boot_cases P env py w Hgt)
    as [(Hno & _)|(w1 & pre & Hrun & _ & Hpre & _ & _ & _ & Herrno & _)];
    [destruct (Hno Hsaved)|].
  rewrite (attach_wait_run _ _ _ _ Hpause) in Hrun.
  assert (parsed_pause P pause w1 = parsed_pause P pause w) as Hp
    by (unfold parsed_pause; rewrite Herrno; reflexivity).
  rewrite Hp in Hrun. rewrite Hrun. clear Hrun Hsaved Hp.
  cbn [returned events_of]. split; [reflexivity|].
  destruct (parsed_pause P pause w) as [v e] eqn:Hparsed. cbn [fst snd].
  split.
  - intros -> He. exists pre. split; [|exact Hpre].
    replace (e =? ERANGE)%Z with false by (symmetry; apply Z.eqb_neq; exact He).
    rewrite andb_false_r. reflexivity.
  - intros Hbad.
    assert (v = 0%Z ∨ e = ERANGE) as Hv.
    { unfold parsed_pause in Hparsed. destruct Hbad as [->|Hnn].
      - rewrite strtoul_zero in Hparsed.
        destruct (ULONG_MAX P <? 0)%Z; injection Hparsed as <- <-; auto.
      - rewrite (strtoul_not_numeric _ _ _ _ Hnn) in Hparsed.
        injection Hparsed as <- <-; auto. }
    destruct ((e =? ERANGE)%Z || (UINT_MAX <=? v)%Z) eqn:H1.
    + split; [apply Forall_app; split; [exact Hpre|repeat constructor]|].
      rewrite last_snoc. eauto.
    + replace (negb (e =? 0)%Z && (v =? 0)%Z || (v <=? 0)%Z) with true.
      * split; [apply Forall_app; split; [exact Hpre|repeat constructor]|].
        rewrite last_snoc. eauto.
      * apply orb_false_elim in H1 as [H1 _]. apply Z.eqb_neq in H1.
        destruct Hv as [->|]; [|contradiction].
        rewrite orb_true_r. reflexivity.
Qed.

Lemma attach_wait_after_boot_witness :
  ∃ pre,
    events_of (run (_embed_init_python Scenario.linux (Scenario.venv_attach "2")
                      Scenario.good) Scenario.process_start)
    = pre ++ [E_LOG GPIError "Waiting for %lu seconds - attach to PID %d with your debugger";
              E_sleep 2] ∧
    Forall (λ e, is_sleep e = false) pre.
Proof.
  refine (proj1 (proj2 (attach_wait_after_boot
                   Scenario.linux (Scenario.venv_attach "2") Scenario.good
                   Scenario.process_start "2" eq_refl _)) eq_refl _).
  - vm_compute. repeat constructor.
  - vm_compute. discriminate.
Defined.

(** With [COCOTB_ATTACH] set to "2", which parses to 2, a boot whose runtime
    initialization fails returns without ever calling [sleep]. *)
Lemma attach_wait_counterexample :
  let o := run (_embed_init_python Scenario.linux (Scenario.venv_attach "2")
                  Scenario.init_fails) Scenario.process_start in
  (Scenario.venv_attach "2") !! "COCOTB_ATTACH" = Some "2" ∧
  (parsed_pause Scenario.linux "2" Scenario.process_start).1 = 2%Z ∧
  returned o = Some tt ∧
  ∀ seconds, E_sleep seconds ∉ events_of o.
Proof.
  vm_compute. repeat split. intros seconds Hin.
  repeat (apply elem_of_cons in Hin as [Hin|Hin]; [discriminate|]).
  apply elem_of_nil in Hin. exact Hin.
Qed.

(** ** Start, notify and cleanup *)

Lemma start_when_started py argc _argv w fn :
  pEventFn w = Some fn →
  run (_embed_sim_init py argc _argv) w = Returns 0%Z w [].
Proof.
  destruct w as [gt fn' path e init gil tok]. cbn [pEventFn]. intros ->.
  reflexivity.
Qed.

Lemma event_forwarded py msg w fn :
  pEventFn w = Some fn →
  List.filter is_PyObject_CallFunction
    (events_of (run (_embed_sim_event py msg) w))
  = [E_PyObject_CallFunction fn "s" (default "No message provided" msg)].
Proof.
  destruct w as [gt fn' path e init gil tok]. cbn [pEventFn]. intros ->.
  unfold _embed_sim_event. exec. destruct msg; repeat answer; reflexivity.
Qed.

Lemma event_dropped py msg w :
  pEventFn w = None →
  run (_embed_sim_event py msg) w = Returns tt w [].
Proof.
  destruct w as [gt fn' path e init gil tok]. cbn [pEventFn]. intros ->.
  reflexivity.
Qed.

Lemma cleanup_state w :
  Py_IsInitialized w = true →
  pEventFn (world_of (run _embed_sim_cleanup w)) = None ∧
  Py_IsInitialized (world_of (run _embed_sim_cleanup w)) = false.
Proof.
  destruct w as [gt fn path e init gil tok]. cbn [Py_IsInitialized]. intros ->.
  destruct fn; split; reflexivity.
Qed.

Lemma failed_entry_call py argc _argv w callable arg :
  E_PyObject_CallFunctionObjArgs callable arg
    ∈ events_of (run (_embed_sim_init py argc _argv) w) →
  Runtime.PyObject_CallFunctionObjArgs py callable arg = None →
  E_PyErr_Print ∈ events_of (run (_embed_sim_init py argc _argv) w) ∧
  (if Runtime.SystemExit py (E_PyObject_CallFunctionObjArgs callable arg)
   then exits (run (_embed_sim_init py argc _argv) w)
   else returned (run (_embed_sim_init py argc _argv) w) = Some (-1)%Z) ∧
  ∃ m t entry_module event_fn,
    Runtime.PyImport_ImportModule py "pygpi.entry" = Some m ∧
    Runtime.PyObject_CallMethod py m "load_entry" = Some t ∧
    Runtime.PyArg_ParseTuple_OO py t = Some (entry_module, callable) ∧
    Runtime.PyObject_GetAttrString py entry_module "_sim_event"
    = Some event_fn ∧
    pEventFn (world_of (run (_embed_sim_init py argc _argv) w)) = Some event_fn.
Proof.
  set (exit := Runtime.SystemExit py
                 (E_PyObject_CallFunctionObjArgs callable arg)).
  destruct w as [gt [fn|] path e init gil tok].
  { start_cases. intros Hin. mem. }
  start_cases.
  all: intros Hin Hnone; mem; try discriminate.
  all: try match goal with
       | H : E_PyObject_CallFunctionObjArgs _ _ = E_PyObject_CallFunctionObjArgs _ _ |- _ =>
           injection H as -> ->; try congruence
       end.
  all: subst exit.
  all: match goal with
       | H : Runtime.SystemExit _ (E_PyObject_CallFunctionObjArgs _ _) = _ |- _ =>
           rewrite H
       end.
  all: split; [found|].
  all: split;
    [first [reflexivity
           |cbv [exits]; rewrite ?last_cons, ?last_app; reflexivity]|].
  all: eexists _, _, _, _; repeat split; eassumption || reflexivity.
Qed.

Lemma no_sim_event_missing_exactly :
  missing_exactly Scenario.no_sim_event event_hook.
Proof.
  exists 10%N. split; [reflexivity|].
  exists 11%N, 12%N, 13%N. cbn. repeat split; discriminate.
Qed.

Lemma no_sim_event_exits_missing_exactly :
  missing_exactly Cases.no_sim_event_exits event_hook.
Proof.
  exists 10%N. split; [reflexivity|].
  exists 11%N, 12%N, 13%N. cbn. repeat split; discriminate.
Qed.

(** A failed resolution in [_embed_sim_init]: the dump, then the end of the
    process or the return of -1. *)
Ltac aborted :=
  match goal with
  | |- context [Runtime.SystemExit ?py ?e] =>
      let H := fresh "Hexit" in
      destruct (Runtime.SystemExit py e) eqn:H; exec;
      (split; [reflexivity|]); (split; [found|]);
      (split; [eexists; split; [reflexivity|rewrite H; reflexivity]|]);
      try reflexivity
  end.

(** C2 (amended).  On an initialized runtime, when the entry module is found
    and exactly one of the four symbols fails to resolve, [_embed_sim_init]
    dumps the error of the failed call with [PyErr_Print]: if that error is
    SystemExit the process ends there, otherwise the call returns -1.
    [pEventFn] is left NULL either way.  [py_gpi_logger_initialize] has not
    been called when the missing symbol is the log hook, the filter hook or
    the main entry; when it is the event hook [_sim_event], the failed call
    is its lookup, and the log and filter hooks resolved before it have been
    registered, once, by then. *)
Theorem one_missing_symbol_aborts_start py argc _argv sym w :
  Py_IsInitialized w = true →
  pEventFn w = None →
  missing_exactly py sym →
  let o := run (_embed_sim_init py argc _argv) w in
  pEventFn (world_of o) = None ∧
  E_PyErr_Print ∈ events_of o ∧
  (∃ failed,
     dumped (events_of o) = Some failed ∧
     if Runtime.SystemExit py failed then exits o
     else returned o = Some (-1)%Z) ∧
  match sym with
  | event_hook =>
      ∃ m t entry_module entry_point log_func filter_func,
        Runtime.PyImport_ImportModule py "pygpi.entry" = Some m ∧
        Runtime.PyObject_CallMethod py m "load_entry" = Some t ∧
        Runtime.PyArg_ParseTuple_OO py t = Some (entry_module, entry_point) ∧
        Runtime.PyObject_GetAttrString py entry_module "_log_from_c"
        = Some log_func ∧
        Runtime.PyObject_GetAttrString py entry_module "_filter_from_c"
        = Some filter_func ∧
        dumped (events_of o)
        = Some (E_PyObject_GetAttrString entry_module "_sim_event") ∧
        List.filter is_logger_initialize (events_of o)
        = [E_py_gpi_logger_initialize log_func filter_func]
  | _ => List.filter is_logger_initialize (events_of o) = []
  end.
Proof.
  destruct w as [gt fn path e init gil tok]. cbn [pEventFn].
  intros _ -> (m & Himp & Hsym).
  unfold _embed_sim_init; exec. rewrite Himp. exec.
  destruct (Runtime.PyObject_CallMethod py m "load_entry") as [tuple|] eqn:Hcall;
    exec.
  2: { destruct sym; try (destruct Hsym as (? & ? & ? & [=] & _)); aborted. }
  destruct (Runtime.PyArg_ParseTuple_OO py tuple) as [[em ep]|] eqn:Hparse;
    exec.
  2: { destruct sym;
       try (destruct Hsym as (? & ? & ? & [= <-] & Hp & _); congruence);
       aborted. }
  assert (sym ≠ main_entry) as Hmain.
  { intros ->. cbn in Hsym. congruence. }
  assert ((Runtime.PyObject_GetAttrString py em "_log_from_c" = None
           ↔ sym = log_hook) ∧
          (Runtime.PyObject_GetAttrString py em "_filter_from_c" = None
           ↔ sym = filter_hook) ∧
          (Runtime.PyObject_GetAttrString py em "_sim_event" = None
           ↔ sym = event_hook)) as (Hlog & Hfilter & Hevent).
  { destruct sym; try congruence;
      destruct Hsym as (? & ? & ? & [= <-] & Hp & ?);
      rewrite Hparse in Hp; injection Hp as <- <-; assumption. }
  clear Hsym.
  destruct (Runtime.PyObject_GetAttrString py em "_log_from_c")
    as [log|] eqn:Hl; exec.
  2: { rewrite (proj1 Hlog eq_refl). aborted. }
  destruct (Runtime.PyObject_GetAttrString py em "_filter_from_c")
    as [filter|] eqn:Hf; exec.
  2: { rewrite (proj1 Hfilter eq_refl). aborted. }
  destruct (Runtime.PyObject_GetAttrString py em "_sim_event")
    as [event|] eqn:He; exec.
  2: { rewrite (proj1 Hevent eq_refl).
       aborted; exists m, tuple, em, ep, log, filter; repeat split; assumption. }
  destruct sym; try congruence.
  - destruct Hlog as [_ Hlog]. discriminate (Hlog eq_refl).
  - destruct Hfilter as [_ Hfilter]. discriminate (Hfilter eq_refl).
  - destruct Hevent as [_ Hevent]. discriminate (Hevent eq_refl).
Qed.

Lemma one_missing_symbol_aborts_start_witness :
  (let o := run (_embed_sim_init Scenario.no_sim_event 1 ["testbench"])
                Scenario.booted in
   returned o = Some (-1)%Z ∧
   List.filter is_logger_initialize (events_of o)
   = [E_py_gpi_logger_initialize 14%N 15%N]) ∧
  exits (run (_embed_sim_init Cases.no_sim_event_exits 1 ["testbench"])
             Scenario.booted).
Proof.
  split.
  - destruct (one_missing_symbol_aborts_start
                Scenario.no_sim_event 1 ["testbench"] event_hook Scenario.booted
                eq_refl eq_refl no_sim_event_missing_exactly)
      as (_ & _ & (failed & Hd & Hr) & H2).
    split.
    + vm_compute in Hd. injection Hd as <-. exact Hr.
    + destruct H2 as (m & t & em & ep & l & f & H3 & H4 & H5 & H6 & H7 & _ & H8).
      vm_compute in H3, H4, H5, H6, H7.
      injection H3 as <-. injection H4 as <-. injection H5 as <- <-.
      injection H6 as <-. injection H7 as <-. exact H8.
  - destruct (one_missing_symbol_aborts_start
                Cases.no_sim_event_exits 1 ["testbench"] event_hook
                Scenario.booted eq_refl eq_refl
                no_sim_event_exits_missing_exactly)
      as (_ & _ & (failed & Hd & Hr) & _).
    vm_compute in Hd. injection Hd as <-. exact Hr.
Defined.

(** With [_sim_event] the only missing symbol, the start fails after the
    log and filter hooks were registered with the logging bridge. *)
Lemma one_missing_symbol_counterexample :
  let o := run (_embed_sim_init Scenario.no_sim_event 1 ["testbench"])
               Scenario.booted in
  missing_exactly Scenario.no_sim_event event_hook ∧
  returned o = Some (-1)%Z ∧
  pEventFn (world_of o) = None ∧
  E_py_gpi_logger_initialize 14%N 15%N ∈ events_of o.
Proof.
  split; [exact no_sim_event_missing_exactly|].
  vm_compute. repeat split. repeat constructor.
Qed.

(** C3 (amended).  On an initialized runtime, when the call of the main
    entry fails, [_embed_sim_init] dumps the error with [PyErr_Print]: if the
    error is SystemExit the process ends there, otherwise the call returns
    -1.  [pEventFn] keeps the event hook that this attempt looked up under
    [_sim_event]: a later [_embed_sim_init] takes the already-started path and
    returns 0 at once, and a later [_embed_sim_event] forwards its message
    to that hook. *)
Theorem failed_entry_call_keeps_event_hook py argc _argv w callable arg :
  let o := run (_embed_sim_init py argc _argv) w in
  Py_IsInitialized w = true →
  E_PyObject_CallFunctionObjArgs callable arg ∈ events_of o →
  Runtime.PyObject_CallFunctionObjArgs py callable arg = None →
  E_PyErr_Print ∈ events_of o ∧
  (if Runtime.SystemExit py (E_PyObject_CallFunctionObjArgs callable arg)
   then exits o
   else returned o = Some (-1)%Z) ∧
  ∃ m t entry_module event_fn,
    Runtime.PyImport_ImportModule py "pygpi.entry" = Some m ∧
    Runtime.PyObject_CallMethod py m "load_entry" = Some t ∧
    Runtime.PyArg_ParseTuple_OO py t = Some (entry_module, callable) ∧
    Runtime.PyObject_GetAttrString py entry_module "_sim_event"
    = Some event_fn ∧
    pEventFn (world_of o) = Some event_fn ∧
    (∀ py' argc' _argv',
       run (_embed_sim_init py' argc' _argv') (world_of o)
       = Returns 0%Z (world_of o) []) ∧
    (∀ py' msg,
       List.filter is_PyObject_CallFunction
         (events_of (run (_embed_sim_event py' msg) (world_of o)))
       = [E_PyObject_CallFunction event_fn "s"
            (default "No message provided" msg)]).
Proof.
  intros o _ Hin Hnone.
  destruct (failed_entry_call _ _ _ _ _ _ Hin Hnone)
    as (Hprint & Hret & m & t & em & fn & Himp & Hload & Hparse & Hget & Hfn).
  split; [exact Hprint|]. split; [exact Hret|].
  exists m, t, em, fn. repeat split; try assumption.
  - intros. exact (start_when_started _ _ _ _ _ Hfn).
  - intros. exact (event_forwarded _ _ _ _ Hfn).
Qed.

Lemma failed_entry_call_keeps_event_hook_witness :
  (let o := run (_embed_sim_init Scenario.entry_raises 1 ["testbench"])
                Scenario.booted in
   returned o = Some (-1)%Z ∧
   run (_embed_sim_init Scenario.good 1 ["testbench"]) (world_of o)
   = Returns 0%Z (world_of o) []) ∧
  exits (run (_embed_sim_init Cases.entry_exits 1 ["testbench"])
             Scenario.booted).
Proof.
  split.
  - assert (E_PyObject_CallFunctionObjArgs
              13%N [Some (marshal Scenario.C_locale "testbench")]
              ∈ events_of (run (_embed_sim_init Scenario.entry_raises 1
                                  ["testbench"]) Scenario.booted)) as Hin.
    { vm_compute. repeat constructor. }
    destruct (failed_entry_call_keeps_event_hook
                Scenario.entry_raises 1 ["testbench"] Scenario.booted
                _ _ eq_refl Hin eq_refl)
      as (_ & H1 & m & t & em & fn & _ & _ & _ & _ & _ & H2 & _).
    split; [exact H1|apply H2].
  - assert (E_PyObject_CallFunctionObjArgs
              13%N [Some (marshal Scenario.C_locale "testbench")]
              ∈ events_of (run (_embed_sim_init Cases.entry_exits 1
                                  ["testbench"]) Scenario.booted)) as Hin.
    { vm_compute. repeat constructor. }
    exact (proj1 (proj2 (failed_entry_call_keeps_event_hook
                           Cases.entry_exits 1 ["testbench"] Scenario.booted
                           _ _ eq_refl Hin eq_refl))).
Defined.

(** After a start whose entry call failed, a second start returns 0 without
    doing anything and a notify reaches the event hook. *)
Lemma failed_entry_call_counterexample :
  let o := run (_embed_sim_init Scenario.entry_raises 1 ["testbench"])
               Scenario.booted in
  returned o = Some (-1)%Z ∧
  run (_embed_sim_init Scenario.good 1 ["testbench"]) (world_of o)
  = Returns 0%Z (world_of o) [] ∧
  events_of (run (_embed_sim_event Scenario.good (Some "sim_finish"))
               (world_of o))
  = [E_to_python; E_PyGILState_Ensure;
     E_PyObject_CallFunction 16%N "s" "sim_finish";
     E_Py_DecRef 31%N; E_PyGILState_Release; E_to_simulator].
Proof. vm_compute. repeat split. Qed.

(** C4.  [_embed_sim_cleanup] is idempotent: on an initialized runtime,
    which is what a successful boot leaves ([boot_initializes]), the first
    call returns with the runtime finalized and [pEventFn] NULL, a
    second call returns at once with no event and the same state, and the
    two calls together release the reference held in [pEventFn] once if it
    was set and never otherwise. *)
Theorem cleanup_twice w :
  Py_IsInitialized w = true →
  let o1 := run _embed_sim_cleanup w in
  let o2 := run _embed_sim_cleanup (world_of o1) in
  returned o1 = Some tt ∧
  Py_IsInitialized (world_of o1) = false ∧
  pEventFn (world_of o1) = None ∧
  o2 = Returns tt (world_of o1) [] ∧
  List.filter is_Py_DecRef (events_of o1 ++ events_of o2)
  = match pEventFn w with Some fn => [E_Py_DecRef fn] | None => [] end.
Proof.
  destruct w as [gt fn path e init gil tok]. cbn [Py_IsInitialized]. intros ->.
  unfold _embed_sim_cleanup. exec. repeat split; destruct fn; reflexivity.
Qed.

Lemma cleanup_twice_witness :
  let o1 := run _embed_sim_cleanup Scenario.started in
  run _embed_sim_cleanup (world_of o1) = Returns tt (world_of o1) [] ∧
  List.filter is_Py_DecRef (events_of o1) = [E_Py_DecRef 16%N].
Proof.
  destruct (cleanup_twice Scenario.started eq_refl) as (_ & _ & _ & H2 & H3).
  split; [exact H2|]. cbv zeta in H3. rewrite H2 in H3. cbn [events_of] in H3.
  rewrite app_nil_r in H3. exact H3.
Defined.

(** C6.  [_embed_sim_event] does nothing when [pEventFn] is NULL; otherwise,
    called without a message, it calls the event hook exactly once, with the
    text "No message provided". *)
Theorem event_without_message py w :
  match pEventFn w with
  | None => ∀ msg, run (_embed_sim_event py msg) w = Returns tt w []
  | Some fn =>
      List.filter is_PyObject_CallFunction
        (events_of (run (_embed_sim_event py None) w))
      = [E_PyObject_CallFunction fn "s" "No message provided"]
  end.
Proof.
  destruct (pEventFn w) as [fn|] eqn:Hfn.
  - exact (event_forwarded py None w fn Hfn).
  - intros msg. exact (event_dropped py msg w Hfn).
Qed.

Lemma event_without_message_witness :
  List.filter is_PyObject_CallFunction
    (events_of (run (_embed_sim_event Scenario.good None) Scenario.started))
  = [E_PyObject_CallFunction 16%N "s" "No message provided"].
Proof. exact (event_without_message Scenario.good Scenario.started). Defined.

Lemma start_marshals py argc _argv w entry_point :
  Py_IsInitialized w = true →
  pEventFn w = None →
  resolves py argc _argv entry_point →
  E_PyObject_CallFunctionObjArgs entry_point
    ((λ str, Some (marshal (Runtime.locale py) str))
       <$> take (Z.to_nat argc) _argv)
    ∈ events_of (run (_embed_sim_init py argc _argv) w).
Proof.
  destruct w as [gt fn path e init gil tok]. cbn [pEventFn].
  intros _ -> (m & t & em & Himp & Hload & Hparse & [log Hlog] & [filter Hfilter]
               & [event Hevent] & Hargc & Hlen & [list Hlist] & Hmem).
  destruct (decode_argv_succeeds py _argv (Z.to_nat argc) 0
              (replicate (Z.to_nat argc) None)
              (mkWorld gt (Some event) path e init true Interpreter) Hlen Hmem)
    as (items & tl & Hloop).
  assert (length (replicate (Z.to_nat argc) (@None PyStr))
          = 0 + Z.to_nat argc) as Hitems by apply length_replicate.
  pose proof (decode_argv_items _ _ _ _ _ _ _ _ _ Hitems Hloop) as ->.
  cbn [take app] in Hloop. rewrite drop_0 in Hloop.
  unfold _embed_sim_init. exec.
  rewrite Himp. exec. rewrite Hload. exec. rewrite Hparse. exec.
  rewrite Hlog. exec. rewrite Hfilter. exec. rewrite Hevent. exec.
  replace (argc <? 0)%Z with false by (symmetry; apply Z.ltb_ge; exact Hargc).
  rewrite Hlist. exec. rewrite Hloop. exec.
  repeat answer; found.
Qed.

(** C7.  Every call of [_embed_sim_init] and of [_embed_sim_event] that
    returns, the early error returns with -1 included, is a matched crossing:
    each handoff to the interpreter and each [PyGILState_Ensure] is followed
    by its release, every call that needs the interpreter lies inside the
    pair, the token is back with the host and the GIL is as it was.  On an
    initialized runtime a call that does not return has ended the process:
    in [PyErr_Print], dumping a SystemExit, or, for [_embed_sim_init], with a
    read past the end of [_argv]. *)
Theorem crossings_are_matched py argc _argv msg w :
  match run (_embed_sim_init py argc _argv) w with
  | Returns _ w' t =>
      crossing t (Host, 0) = Some (Host, 0) ∧
      (token w = Host → token w' = Host) ∧
      gil_held w' = gil_held w
  | Terminates why _ t =>
      Py_IsInitialized w = true →
      (why = OutOfBounds ∧ length _argv < Z.to_nat argc)
      ∨ (why = Py_Exit ∧ last t = Some E_PyErr_Print)
  end ∧
  match run (_embed_sim_event py msg) w with
  | Returns _ w' t =>
      crossing t (Host, 0) = Some (Host, 0) ∧
      (token w = Host → token w' = Host) ∧
      gil_held w' = gil_held w
  | Terminates why _ t =>
      Py_IsInitialized w = true →
      why = Py_Exit ∧ last t = Some E_PyErr_Print
  end.
Proof.
  destruct w as [gt [fn|] path e init gil tok]; split.
  - start_cases. auto.
  - unfold _embed_sim_event. exec. repeat answer; auto.
  - start_cases.
    all: repeat match goal with
         | H : _ ∧ _ |- _ => destruct H
         | H : _ ∨ _ |- _ => destruct H
         end; subst.
    all: try discriminate.
    all: try (intros _; left; split; [reflexivity|lia]).
    all: try (intros _; right; split; [reflexivity|];
              rewrite ?last_cons, ?last_app;
              repeat match goal with H : last _ = _ |- _ => rewrite H end;
              reflexivity).
    all: repeat split; auto.
    all: rewrite <- ?app_assoc; cbn [app crossing crossing_step needs_interpreter].
    all: rewrite ?crossing_app, ?(crossing_marshal _ 0) by assumption.
    all: try reflexivity.
  - unfold _embed_sim_event. exec. auto.
Qed.

Lemma crossings_are_matched_witness :
  token (world_of (run (_embed_sim_init Scenario.no_sim_event 1 ["testbench"])
                       Scenario.booted)) = Host ∧
  token (world_of (run (_embed_sim_event Scenario.good None)
                       Scenario.started)) = Host ∧
  last (events_of (run (_embed_sim_event Cases.event_exits None)
                       Scenario.started)) = Some E_PyErr_Print.
Proof.
  split; [|split].
  - exact (proj1 (proj2 (proj1 (crossings_are_matched
             Scenario.no_sim_event 1 ["testbench"] None Scenario.booted)))
             eq_refl).
  - exact (proj1 (proj2 (proj2 (crossings_are_matched
             Scenario.good 1 ["testbench"] None Scenario.started)))
             eq_refl).
  - exact (proj2 (proj2 (crossings_are_matched
             Cases.event_exits 1 ["testbench"] None Scenario.started)
             eq_refl)).
Defined.




(** * Further properties *)

(** ** The interpreter path *)

Lemma wcsncpy_length l n : length (Libc.wcsncpy l n) = n.
Proof.
  unfold Libc.wcsncpy. rewrite length_app, length_take, length_replicate. lia.
Qed.

Lemma wcs_padded l k :
  Forall (λ c, c ≠ 0%Z) l → Libc.wcs (l ++ replicate k 0%Z) = l.
Proof.
  induction 1 as [|c l Hc _ IH]; cbn.
  - destruct k; reflexivity.
  - destruct (c =? 0)%Z eqn:E; [apply Z.eqb_eq in E; contradiction|].
    rewrite IH. reflexivity.
Qed.

Lemma wcsncpy_fits l n :
  Forall (λ c, c ≠ 0%Z) l → 0 < n →
  (nth (n - 1) (Libc.wcsncpy l n) 0 =? 0)%Z = bool_decide (length l < n).
Proof.
  intros Hl Hn. unfold Libc.wcsncpy. rewrite nth_lookup.
  case_bool_decide as Hlen.
  - rewrite take_ge by lia. rewrite lookup_app_r by lia.
    rewrite lookup_replicate_2 by lia. reflexivity.
  - replace (n - length l) with 0 by lia. cbn [replicate]. rewrite app_nil_r.
    rewrite lookup_take_lt by lia.
    destruct (l !! (n - 1)) as [c|] eqn:Hc.
    + cbn. apply Z.eqb_neq. exact (proj1 (Forall_lookup _ _) Hl _ _ Hc).
    + apply lookup_ge_None in Hc. lia.
Qed.

Lemma path_size_div P :
  0 < sizeof_wchar_t P →
  PATH_MAX P * sizeof_wchar_t P / sizeof_wchar_t P = PATH_MAX P.
Proof. intros H. apply Nat.div_mul. lia. Qed.

(** X1.  [get_interpreter_path] accepts a decoded path exactly when it
    leaves room for the terminating null: a path shorter than [PATH_MAX] wide
    characters is copied whole into the buffer and 0 is returned; a path of
    [PATH_MAX] characters or more is reported as too long and -1 is
    returned. *)
Theorem interpreter_path_fits P env py w path_c path_temp :
  0 < sizeof_wchar_t P →
  0 < PATH_MAX P →
  env !! "PYTHON_BIN" = Some path_c →
  Runtime.Py_DecodeLocale py path_c = Some path_temp →
  Forall (λ c, c ≠ 0%Z) path_temp →
  let o := run (get_interpreter_path P env py
                  (PATH_MAX P * sizeof_wchar_t P)) w in
  length (interpreter_path (world_of o)) = PATH_MAX P ∧
  if bool_decide (length path_temp < PATH_MAX P) then
    returned o = Some 0%Z ∧
    Libc.wcs (interpreter_path (world_of o)) = path_temp
  else
    returned o = Some (-1)%Z ∧
    E_LOG GPIError "Unable to set Python Program Name. Path to interpreter too long"
      ∈ events_of o.
Proof.
  intros Hsz Hmax Hbin Hdec Hnul.
  destruct w as [gt fn path e init gil tok].
  unfold get_interpreter_path. rewrite Hbin. exec. rewrite Hdec. exec.
  rewrite (path_size_div P Hsz), (wcsncpy_fits _ _ Hnul Hmax).
  case_bool_decide as Hlen; exec.
  - rewrite wcsncpy_length. repeat split.
    unfold Libc.wcsncpy. rewrite take_ge by lia. apply wcs_padded, Hnul.
  - rewrite wcsncpy_length. repeat split. found.
Qed.

Lemma interpreter_path_fits_witness :
  returned (run (get_interpreter_path Scenario.linux Scenario.venv Scenario.good
                   (16 * 4)) Scenario.process_start) = Some 0%Z ∧
  returned (run (get_interpreter_path Scenario.linux Cases.long_path
                   Scenario.good (16 * 4)) Scenario.process_start)
  = Some (-1)%Z.
Proof.
  split.
  - refine (proj1 (proj2 (interpreter_path_fits
              Scenario.linux Scenario.venv Scenario.good Scenario.process_start
              "/p" [47; 112]%Z _ _ eq_refl eq_refl _))).
    + cbn; lia.
    + cbn; lia.
    + repeat (constructor; [lia|]). constructor.
  - refine (proj1 (proj2 (interpreter_path_fits
              Scenario.linux Cases.long_path Scenario.good
              Scenario.process_start "/opt/venv/python"
              (marshal Scenario.C_locale "/opt/venv/python")
              _ _ eq_refl eq_refl _))).
    + cbn; lia.
    + cbn; lia.
    + vm_compute. repeat (constructor; [discriminate|]). constructor.
Defined.

(** X2.  [get_interpreter_path] returns 0 or -1.  When [PYTHON_BIN] is
    absent or does not decode it returns -1 without touching the state and
    without freeing anything; once the path is decoded, the temporary is
    freed exactly once, as the last action, whether the path fits or not. *)
Theorem interpreter_path_temporary_freed P env py path_size w :
  let o := run (get_interpreter_path P env py path_size) w in
  (returned o = Some 0%Z ∨ returned o = Some (-1)%Z) ∧
  match env !! "PYTHON_BIN" with
  | Some path_c =>
      match Runtime.Py_DecodeLocale py path_c with
      | Some _ =>
          List.filter is_PyMem_RawFree (events_of o) = [E_PyMem_RawFree] ∧
          last (events_of o) = Some E_PyMem_RawFree
      | None => events_of o
                = [E_Py_DecodeLocale path_c;
                   E_LOG GPIError "Unable to set Python Program Name. Decoding error in Python executable path.";
                   E_LOG GPIInfo "Python executable path: %s"] ∧
                returned o = Some (-1)%Z ∧ world_of o = w
      end
  | None => List.filter is_PyMem_RawFree (events_of o) = [] ∧
            (∀ arg, E_Py_DecodeLocale arg ∉ events_of o) ∧
            returned o = Some (-1)%Z ∧ world_of o = w
  end.
Proof.
  destruct w as [gt fn path e init gil tok].
  unfold get_interpreter_path. exec. repeat answer; repeat split; auto.
  intros arg Hin. mem. discriminate.
Qed.

Lemma logStrToLevel_lookup s level :
  logStrToLevel !! s = Some level ↔ s = level_name level.
Proof.
  split.
  - unfold logStrToLevel. cbn [list_to_map foldr uncurry fst snd].
    rewrite !lookup_insert_Some, lookup_empty.
    intros H. repeat destruct H as [[<- <-]|[_ H]]; try reflexivity.
    discriminate.
  - intros ->. destruct level; reflexivity.
Qed.

Lemma attach_wait_flow P env w :
  ∃ fl e t,
    attach_wait P env w = (fl, set_errno e w, t) ∧
    (fl = Next tt ∨ fl = Return tt) ∧
    Forall (λ e, is_attach_event e = true) t.
Proof.
  destruct w as [gt fn path e init gil tok]. unfold attach_wait.
  destruct (env !! "COCOTB_ATTACH") as [pause|]; exec.
  - destruct (Libc.strtoul _ _ pause e) as [v e']. exec.
    destruct ((e' =? ERANGE)%Z || (UINT_MAX <=? v)%Z);
      [|destruct (negb (e' =? 0)%Z && (v =? 0)%Z || (v <=? 0)%Z)];
      eexists _, e', _; (split; [reflexivity|]); split; auto;
      repeat constructor.
  - eexists _, e, _. split; [reflexivity|]. split; auto.
Qed.

(** The attach wait, as it stands at the end of [_embed_init_python]. *)
Ltac wait :=
  match goal with
  | |- context [attach_wait ?P0 ?e0 ?w1] =>
      let Hev := fresh "Hwait" in
      destruct (attach_wait_flow P0 e0 w1) as (? & ? & ? & -> & [-> | ->] & Hev);
      exec
  end.

Ltac mem_wait :=
  repeat match goal with
  | F : Forall (λ e, is_attach_event e = true) ?t, H : (?e ∈ ?t) |- _ =>
      let F' := fresh in
      pose proof (proj1 (Forall_forall _ _) F _ H) as F'; cbn in F'; clear H
  end.

(** X3.  [_embed_init_python] sets the log level exactly when
    [COCOTB_LOG_LEVEL] is one of the six names, spelled as in the table
    (upper case); any other value is reported as an invalid log level, and in
    every case the boot goes on to [to_python]. *)
Theorem log_level_set_by_name P env py w level :
  gtstate w = None →
  let o := run (_embed_init_python P env py) w in
  (E_py_gpi_logger_set_level level ∈ events_of o
   ↔ env !! "COCOTB_LOG_LEVEL" = Some (level_name level)) ∧
  (E_LOG GPIError "Invalid log level: %s" ∈ events_of o
   ↔ ∃ s, env !! "COCOTB_LOG_LEVEL" = Some s ∧ ∀ l, s ≠ level_name l) ∧
  E_to_python ∈ events_of o.
Proof.
  destruct w as [gt fn path e init gil tok]. cbn [gtstate]. intros ->.
  unfold _embed_init_python, get_interpreter_path. exec.
  destruct (env !! "COCOTB_LOG_LEVEL") as [s|] eqn:Henv;
    [destruct (logStrToLevel !! s) as [l|] eqn:Hl|]; exec.
  - apply logStrToLevel_lookup in Hl as ->.
    repeat answer; try wait.
    all: repeat split; try found.
    all: try (intros Hin; mem; mem_wait; try discriminate; congruence).
    all: try (intros [= Hname]; destruct l, level; try discriminate Hname; found).
    all: intros (? & Heq & Hne); injection Heq as <-; destruct (Hne l eq_refl).
  - assert (∀ l, s ≠ level_name l) as Hne.
    { intros l ->. rewrite (proj2 (logStrToLevel_lookup _ l) eq_refl) in Hl.
      discriminate. }
    repeat answer; try wait.
    all: repeat split; try found; eauto.
    all: try (intros Hin; mem; mem_wait; discriminate).
    all: try (intros _; found).
    all: intros [= ->]; destruct (Hne level eq_refl).
  - repeat answer; try wait.
    all: repeat split; try found.
    all: try (intros Hin; mem; mem_wait; discriminate).
    all: try discriminate.
    all: intros (? & Heq & _); discriminate Heq.
Qed.

Lemma log_level_set_by_name_witness :
  E_py_gpi_logger_set_level GPIDebug
    ∈ events_of (run (_embed_init_python Scenario.linux
                        {[ "COCOTB_LOG_LEVEL" := "DEBUG" ]} Scenario.good)
                     Scenario.process_start).
Proof.
  exact (proj2 (proj1 (log_level_set_by_name
           Scenario.linux {[ "COCOTB_LOG_LEVEL" := "DEBUG" ]} Scenario.good
           Scenario.process_start GPIDebug eq_refl)) eq_refl).
Defined.



Lemma crossing_attach t c :
  Forall (λ e, is_attach_event e = true) t → crossing t c = Some c.
Proof.
  induction 1 as [|e t He _ IH]; cbn; [reflexivity|].
  destruct c as [h n]. destruct e; try discriminate; cbn; exact IH.
Qed.



Lemma boot_reaches_attach_wait P env py w :
  E_PyEval_SaveThread ∈ events_of (run (_embed_init_python P env py) w) →
  ∃ w1 pre,
    run (_embed_init_python P env py) w
    = match run (attach_wait P env) w1 with
      | Returns a w2 t => Returns a w2 (pre ++ t)
      | Terminates why w2 t => Terminates why w2 (pre ++ t)
      end ∧
    Forall (λ e, is_sleep e = false) pre ∧
    errno w1 = errno w.
Proof.
  intros Hsaved.
  destruct (gtstate w) as [tstate|] eqn:Hgt.
  { rewrite (boot_asserts _ _ _ _ _ Hgt) in Hsaved. cbn in Hsaved. mem. }
  destruct (boot_cases P env py w Hgt)
    as [(Hno & _)|(w1 & pre & Hrun & _ & Hpre & _ & _ & _ & Herrno & _)];
    [destruct (Hno Hsaved)|].
  eauto.
Qed.



Lemma digits_trailing junk s : ∀ acc,
  not_digit_first junk = true →
  Libc.digits acc (s +:+ junk) = Libc.digits acc s.
Proof.
  induction s as [|c s IH]; intros acc Hjunk.
  - change (Libc.digits acc junk = acc).
    destruct junk as [|c junk]; [reflexivity|].
    unfold not_digit_first in Hjunk. cbn [Libc.digits].
    destruct (Libc.digit c); [discriminate|reflexivity].
  - change (Libc.digits acc (String c (s +:+ junk))
            = Libc.digits acc (String c s)).
    cbn [Libc.digits].
    destruct (Libc.digit c); [apply IH; exact Hjunk|reflexivity].
Qed.

Lemma skip_spaces_trailing junk s :
  Libc.skip_spaces s ≠ "" →
  Libc.skip_spaces (s +:+ junk) = Libc.skip_spaces s +:+ junk.
Proof.
  induction s as [|c s IH]; [cbn; congruence|].
  change (Libc.skip_spaces (String c s) ≠ ""
          → Libc.skip_spaces (String c (s +:+ junk))
            = Libc.skip_spaces (String c s) +:+ junk).
  cbn [Libc.skip_spaces].
  destruct (Libc.isspace c); [exact IH|reflexivity].
Qed.

Lemma strtoul_trailing ulong_max einval s junk e :
  Libc.numeric s = true →
  not_digit_first junk = true →
  Libc.strtoul ulong_max einval (s +:+ junk) e
  = Libc.strtoul ulong_max einval s e.
Proof.
  unfold Libc.numeric, Libc.strtoul. intros Hnum Hjunk.
  destruct (Libc.skip_spaces s) as [|c rest] eqn:Hs; [discriminate|].
  rewrite skip_spaces_trailing by (rewrite Hs; discriminate). rewrite Hs.
  change (String c rest +:+ junk) with (String c (rest +:+ junk)).
  cbn [Libc.sign].
  destruct (c =? "-")%char; [rewrite digits_trailing by done; reflexivity|].
  destruct (c =? "+")%char; [rewrite digits_trailing by done; reflexivity|].
  change (String c (rest +:+ junk)) with (String c rest +:+ junk).
  rewrite digits_trailing by done. reflexivity.
Qed.

Lemma attach_wait_trailing P env pause junk w :
  Libc.numeric pause = true →
  not_digit_first junk = true →
  attach_wait P (<["COCOTB_ATTACH" := pause +:+ junk]> env) w
  = attach_wait P (<["COCOTB_ATTACH" := pause]> env) w.
Proof.
  intros Hnum Hjunk. destruct w as [gt fn path e init gil tok].
  unfold attach_wait. rewrite !lookup_insert_eq. exec.
  rewrite strtoul_trailing by done. reflexivity.
Qed.

(** X7.  [strtoul] is called without an end pointer, so text after the
    number in [COCOTB_ATTACH] is not noticed: appending anything that does not
    start with a digit to a numeric value changes nothing in the boot. *)
Theorem attach_wait_ignores_trailing_text P env py w pause junk :
  Libc.numeric pause = true →
  not_digit_first junk = true →
  run (_embed_init_python P (<["COCOTB_ATTACH" := pause +:+ junk]> env) py) w
  = run (_embed_init_python P (<["COCOTB_ATTACH" := pause]> env) py) w.
Proof.
  intros Hnum Hjunk. destruct w as [[tstate|] fn path e init gil tok];
    [reflexivity|].
  unfold _embed_init_python, get_interpreter_path.
  rewrite !lookup_insert_ne by done. exec.
  repeat answer.
  all: try reflexivity.
  all: rewrite attach_wait_trailing by done; reflexivity.
Qed.

Lemma attach_wait_ignores_trailing_text_witness :
  run (_embed_init_python Scenario.linux (Scenario.venv_attach "2s")
         Scenario.good) Scenario.process_start
  = run (_embed_init_python Scenario.linux (Scenario.venv_attach "2")
           Scenario.good) Scenario.process_start.
Proof.
  exact (attach_wait_ignores_trailing_text
           Scenario.linux Scenario.venv Scenario.good Scenario.process_start
           "2" "s" eq_refl eq_refl).
Defined.

Lemma filter_marshal (p : Event → bool) t :
  (∀ e, is_marshal e = true → p e = false) →
  Forall (λ e, is_marshal e = true) t →
  List.filter p t = [].
Proof.
  intros Hp. induction 1 as [|e t He _ IH]; cbn; [reflexivity|].
  rewrite (Hp e He). exact IH.
Qed.

Lemma marshal_not_entry_call e : is_marshal e = true → is_entry_call e = false.
Proof. destruct e; cbn; congruence. Qed.
Lemma marshal_not_logger_initialize e :
  is_marshal e = true → is_logger_initialize e = false.
Proof. destruct e; cbn; congruence. Qed.
Lemma marshal_not_Py_DecRef e : is_marshal e = true → is_Py_DecRef e = false.
Proof. destruct e; cbn; congruence. Qed.

(** Filters over the events of a run of [_embed_sim_init]. *)
Ltac filters :=
  rewrite <- ?app_assoc; cbn [app];
  cbn [List.filter is_entry_call is_logger_initialize is_Py_DecRef];
  rewrite ?List.filter_app;
  rewrite ?(filter_marshal is_entry_call _ marshal_not_entry_call),
          ?(filter_marshal is_logger_initialize _ marshal_not_logger_initialize),
          ?(filter_marshal is_Py_DecRef _ marshal_not_Py_DecRef) by assumption;
  cbn [app List.filter is_entry_call is_logger_initialize is_Py_DecRef length].

Lemma decode_argv_failure py argv n : ∀ i items w r w' t,
  decode_argv py argv n i items w = (Return r, w', t) →
  last t = Some E_PyErr_Print.
Proof.
  induction n as [|n IH]; intros i items w r w' t; cbn [decode_argv].
  - exec. discriminate.
  - destruct (argv !! i) as [arg|]; [|exec; discriminate].
    exec. repeat answer.
    + destruct (decode_argv py argv n (S i) _ w) as [[fl1 w1] t1] eqn:Hrec.
      intros [= -> <- <-]. apply IH in Hrec.
      destruct t1; [discriminate|]. exact Hrec.
    + discriminate.
    + intros [= <- <- <-]. reflexivity.
    + discriminate.
    + intros [= <- <- <-]. reflexivity.
Qed.

Lemma last_elem_of {A} (l : list A) x : last l = Some x → x ∈ l.
Proof.
  intros H. apply last_Some in H as (l' & ->). apply elem_of_app. right.
  apply list_elem_of_here.
Qed.

(** X8.  [_embed_sim_init] returns 0 or -1.  It returns 0 exactly when
    it was already started or the entry point was called and its call
    succeeded; every return of -1 comes after a [PyErr_Print]; the entry
    point is called at most once and the logging bridge is initialized at
    most once. *)
Theorem start_returns_success_iff_entry_ran py argc _argv w :
  match run (_embed_sim_init py argc _argv) w with
  | Returns r w' t =>
      (r = 0%Z ∨ r = (-1)%Z) ∧
      (r = 0%Z ↔
       is_Some (pEventFn w) ∨
       ∃ entry_point arg,
         E_PyObject_CallFunctionObjArgs entry_point arg ∈ t ∧
         is_Some (Runtime.PyObject_CallFunctionObjArgs py entry_point arg)) ∧
      (r = (-1)%Z → E_PyErr_Print ∈ t) ∧
      length (List.filter is_entry_call t) ≤ 1 ∧
      length (List.filter is_logger_initialize t) ≤ 1
  | Terminates _ _ _ => True
  end.
Proof.
  destruct w as [gt [fn|] path e init gil tok].
  { start_cases. repeat split; auto; try discriminate; cbn; eauto. }
  start_cases.
  all: try exact I.
  all: try match goal with
       | H : decode_argv _ _ _ _ _ _ = (Return _, _, _) |- _ =>
           apply decode_argv_failure, last_elem_of in H
       end.
  all: subst.
  all: split; [auto|].
  all: split; [split|].
  all: try discriminate.
  all: try (intros [[? Hsome]|(ep & arg & Hin & [? Hsome])];
            [discriminate Hsome|]; mem; try discriminate;
            match goal with
            | H : E_PyObject_CallFunctionObjArgs _ _ = _ |- _ =>
                injection H as -> ->; congruence
            end).
  all: try (intros _; right; do 2 eexists; split; [found|eauto]).
  all: split; [try discriminate; intros _; try found|].
  all: try (filters; lia).
  rewrite !elem_of_cons, !elem_of_app. tauto.
Qed.

Lemma start_returns_success_iff_entry_ran_witness :
  E_PyErr_Print
    ∈ events_of (run (_embed_sim_init Scenario.entry_raises 1 ["testbench"])
                     Scenario.booted).
Proof.
  exact (proj1 (proj2 (proj2 (start_returns_success_iff_entry_ran
           Scenario.entry_raises 1 ["testbench"] Scenario.booted))) eq_refl).
Defined.

(** X9.  When the call of the entry point succeeds, [_embed_sim_init]
    returns 0, keeps the event hook in [pEventFn], has registered the log and
    filter hooks once, and has released every other reference it acquired, in
    the reverse order of acquisition: the result, the argument list, the
    filter hook, the log hook, the tuple and the entry utility module. *)
Theorem start_success_releases_in_reverse py argc _argv w entry_point arg res :
  let o := run (_embed_sim_init py argc _argv) w in
  E_PyObject_CallFunctionObjArgs entry_point arg ∈ events_of o →
  Runtime.PyObject_CallFunctionObjArgs py entry_point arg = Some res →
  returned o = Some 0%Z ∧
  ∃ module tuple entry_module log_func filter_func event_fn argv_list,
    Runtime.PyImport_ImportModule py "pygpi.entry" = Some module ∧
    Runtime.PyObject_CallMethod py module "load_entry" = Some tuple ∧
    Runtime.PyArg_ParseTuple_OO py tuple = Some (entry_module, entry_point) ∧
    Runtime.PyObject_GetAttrString py entry_module "_log_from_c"
    = Some log_func ∧
    Runtime.PyObject_GetAttrString py entry_module "_filter_from_c"
    = Some filter_func ∧
    Runtime.PyObject_GetAttrString py entry_module "_sim_event"
    = Some event_fn ∧
    Runtime.PyList_New py argc = Some argv_list ∧
    pEventFn (world_of o) = Some event_fn ∧
    List.filter is_logger_initialize (events_of o)
    = [E_py_gpi_logger_initialize log_func filter_func] ∧
    List.filter is_Py_DecRef (events_of o)
    = [E_Py_DecRef res; E_Py_DecRef argv_list; E_Py_DecRef filter_func;
       E_Py_DecRef log_func; E_Py_DecRef tuple; E_Py_DecRef module].
Proof.
  destruct w as [gt [fn|] path e init gil tok]; cbv zeta.
  { start_cases. intros Hin. mem. }
  start_cases.
  all: intros Hin Hres; mem; try discriminate.
  all: match goal with
       | H : E_PyObject_CallFunctionObjArgs _ _ = _ |- _ =>
           injection H as -> ->; try congruence
       end.
  split; [reflexivity|].
  do 7 eexists. repeat (split; [eassumption || reflexivity|]).
  split; [filters; reflexivity|].
  filters. congruence.
Qed.

Lemma start_success_releases_in_reverse_witness :
  List.filter is_Py_DecRef
    (events_of (run (_embed_sim_init Scenario.good 1 ["testbench"])
                    Scenario.booted))
  = [E_Py_DecRef 30%N; E_Py_DecRef 20%N; E_Py_DecRef 15%N;
     E_Py_DecRef 14%N; E_Py_DecRef 11%N; E_Py_DecRef 10%N].
Proof.
  assert (E_PyObject_CallFunctionObjArgs
            13%N [Some (marshal Scenario.C_locale "testbench")]
            ∈ events_of (run (_embed_sim_init Scenario.good 1 ["testbench"])
                             Scenario.booted)) as Hin.
  { vm_compute. repeat constructor. }
  destruct (start_success_releases_in_reverse
              Scenario.good 1 ["testbench"] Scenario.booted _ _ 30%N Hin eq_refl)
    as (_ & m & t & em & l & f & ev & al & H1 & H2 & H3 & H4 & H5 & H6 & H7
        & _ & _ & H).
  injection H1 as <-. injection H2 as <-. injection H3 as <-.
  injection H4 as <-. injection H5 as <-. injection H7 as <-.
  exact H.
Defined.

(** X10.  When [_embed_sim_init] has allocated the argument list and
    returns without having called the entry point (an argument could not be
    decoded), it returns -1 after a [PyErr_Print] and releases the two hooks,
    the tuple and the module, but not the list: the release of the list is
    only registered after the loop. *)
Theorem start_decode_failure_keeps_list py argc _argv w argv_list :
  let o := run (_embed_sim_init py argc _argv) w in
  E_PyList_New argc ∈ events_of o →
  (0 ≤ argc)%Z →
  Runtime.PyList_New py argc = Some argv_list →
  (∀ entry_point arg,
     E_PyObject_CallFunctionObjArgs entry_point arg ∉ events_of o) →
  returned o ≠ None →
  returned o = Some (-1)%Z ∧
  E_PyErr_Print ∈ events_of o ∧
  ∃ module tuple entry_module entry_point log_func filter_func,
    Runtime.PyImport_ImportModule py "pygpi.entry" = Some module ∧
    Runtime.PyObject_CallMethod py module "load_entry" = Some tuple ∧
    Runtime.PyArg_ParseTuple_OO py tuple = Some (entry_module, entry_point) ∧
    Runtime.PyObject_GetAttrString py entry_module "_log_from_c"
    = Some log_func ∧
    Runtime.PyObject_GetAttrString py entry_module "_filter_from_c"
    = Some filter_func ∧
    List.filter is_Py_DecRef (events_of o)
    = [E_Py_DecRef filter_func; E_Py_DecRef log_func;
       E_Py_DecRef tuple; E_Py_DecRef module].
Proof.
  destruct w as [gt [fn|] path e init gil tok]; cbv zeta.
  { start_cases. intros Hin. mem. }
  start_cases.
  all: intros Hin Hargc Hnew Hnocall Hret; mem; try discriminate.
  all: try match goal with
       | H : (_ <? 0)%Z = true |- _ => apply Z.ltb_lt in H; lia
       end.
  all: try congruence.
  all: try (exfalso; eapply Hnocall; found).
  all: match goal with
       | H : decode_argv _ _ _ _ _ _ = (Return _, _, _) |- _ =>
           apply decode_argv_failure, last_elem_of in H
       end.
  all: subst.
  all: split; [reflexivity|].
  all: split; [rewrite !elem_of_cons, !elem_of_app; tauto|].
  all: do 6 eexists; repeat (split; [eassumption || reflexivity|]).
  all: filters; reflexivity.
Qed.

Lemma start_decode_failure_keeps_list_witness :
  List.filter is_Py_DecRef
    (events_of (run (_embed_sim_init Cases.no_memory 2 ["testbench"; "-v"])
                    Scenario.booted))
  = [E_Py_DecRef 15%N; E_Py_DecRef 14%N; E_Py_DecRef 11%N; E_Py_DecRef 10%N].
Proof.
  assert (E_PyList_New 2
            ∈ events_of (run (_embed_sim_init Cases.no_memory 2
                                ["testbench"; "-v"]) Scenario.booted)) as Hin.
  { vm_compute. repeat constructor. }
  assert (∀ entry_point arg,
            E_PyObject_CallFunctionObjArgs entry_point arg
            ∉ events_of (run (_embed_sim_init Cases.no_memory 2
                                ["testbench"; "-v"]) Scenario.booted)) as Hno.
  { vm_compute. intros entry_point arg H.
    repeat (apply elem_of_cons in H as [H|H]; [discriminate|]).
    apply elem_of_nil in H. exact H. }
  destruct (start_decode_failure_keeps_list
              Cases.no_memory 2 ["testbench"; "-v"] Scenario.booted 20%N
              Hin ltac:(lia) eq_refl Hno ltac:(discriminate))
    as (_ & _ & m & t & em & ep & l & f & H1 & H2 & H3 & H4 & H5 & H).
  injection H1 as <-. injection H2 as <-. injection H3 as <- <-.
  injection H4 as <-. injection H5 as <-.
  exact H.
Defined.

(** X11.  With an event hook bound on an initialized runtime,
    [_embed_sim_event] calls the hook once, with the message or the default
    text.  A result is released, and the GIL and the token are released
    after it.  A failure is dumped with [PyErr_Print]: if it is a SystemExit
    the process ends there, with the GIL and the token still held;
    otherwise the failure is logged and the GIL and the token are released.
    A call that returns has changed nothing in the process but handing the
    token back to the host. *)
Theorem event_hook_failure_is_reported py msg w fn :
  Py_IsInitialized w = true →
  pEventFn w = Some fn →
  let o := run (_embed_sim_event py msg) w in
  let text := default "No message provided" msg in
  let called :=
    [E_to_python; E_PyGILState_Ensure; E_PyObject_CallFunction fn "s" text] in
  match Runtime.PyObject_CallFunction py fn text with
  | Some result =>
      o = Returns tt (set_token Host w)
            (called ++ [E_Py_DecRef result;
                        E_PyGILState_Release; E_to_simulator])
  | None =>
      if Runtime.SystemExit py (E_PyObject_CallFunction fn "s" text) then
        o = Terminates Py_Exit (set_token Interpreter (set_gil_held true w))
              (called ++ [E_PyErr_Print])
      else
        o = Returns tt (set_token Host w)
              (called ++ [E_PyErr_Print;
                          E_LOG GPIError "Passing event to upper layer failed";
                          E_PyGILState_Release; E_to_simulator])
  end.
Proof.
  destruct w as [gt fn' path e init gil tok]. cbn [pEventFn].
  intros _ ->.
  unfold _embed_sim_event. destruct msg; cbv [default from_option id]; exec;
    repeat answer; reflexivity.
Qed.

Lemma event_hook_failure_is_reported_witness :
  run (_embed_sim_event Cases.event_raises (Some "sim_finish")) Scenario.started
  = Returns tt Scenario.started
      [E_to_python; E_PyGILState_Ensure;
       E_PyObject_CallFunction 16%N "s" "sim_finish";
       E_PyErr_Print; E_LOG GPIError "Passing event to upper layer failed";
       E_PyGILState_Release; E_to_simulator] ∧
  run (_embed_sim_event Cases.event_exits (Some "sim_finish")) Scenario.started
  = Terminates Py_Exit
      (set_token Interpreter (set_gil_held true Scenario.started))
      [E_to_python; E_PyGILState_Ensure;
       E_PyObject_CallFunction 16%N "s" "sim_finish"; E_PyErr_Print].
Proof.
  split.
  - exact (event_hook_failure_is_reported
             Cases.event_raises (Some "sim_finish") Scenario.started 16%N
             eq_refl eq_refl).
  - exact (event_hook_failure_is_reported
             Cases.event_exits (Some "sim_finish") Scenario.started 16%N
             eq_refl eq_refl).
Defined.

Lemma start_keeps_gtstate py argc _argv w :
  gtstate (world_of (run (_embed_sim_init py argc _argv) w)) = gtstate w.
Proof.
  destruct w as [gt [fn|] path e init gil tok]; start_cases; reflexivity.
Qed.

Lemma host_call_keeps_gtstate c w : gtstate (host_call c w) = gtstate w.
Proof.
  destruct c as [py argc _argv|py msg|]; cbn [host_call].
  - apply start_keeps_gtstate.
  - destruct w as [gt [fn|] path e init gil tok];
      unfold _embed_sim_event; exec; [destruct msg; repeat answer|]; reflexivity.
  - destruct w as [gt fn path e [] gil tok];
      unfold _embed_sim_cleanup; exec; [destruct fn|]; reflexivity.
Qed.

(** X12.  No entry point other than [_embed_init_python] writes
    [gtstate]: once the thread state is saved, after any sequence of starts,
    notifications and cleanups, finalization included, a further boot
    trips the assertion. *)
Theorem boot_never_again calls w tstate P env py :
  gtstate w = Some tstate →
  gtstate (after calls w) = Some tstate ∧
  run (_embed_init_python P env py) (after calls w)
  = Terminates (AssertionFailed "!gtstate") (after calls w) [].
Proof.
  intros Hgt.
  assert (gtstate (after calls w) = Some tstate) as Hafter.
  { revert w Hgt. unfold after.
    induction calls as [|c calls IH]; intros w Hgt; cbn [foldl]; [exact Hgt|].
    apply IH. rewrite host_call_keeps_gtstate. exact Hgt. }
  split; [exact Hafter|]. exact (boot_asserts _ _ _ _ _ Hafter).
Qed.

Lemma boot_never_again_witness :
  run (_embed_init_python Scenario.linux Scenario.venv Scenario.good)
      (after [call_start Scenario.good 1 ["testbench"]; call_cleanup]
         Scenario.booted)
  = Terminates (AssertionFailed "!gtstate")
      (after [call_start Scenario.good 1 ["testbench"]; call_cleanup]
         Scenario.booted) [].
Proof.
  exact (proj2 (boot_never_again
           [call_start Scenario.good 1 ["testbench"]; call_cleanup]
           Scenario.booted 7%N Scenario.linux Scenario.venv Scenario.good
           eq_refl)).
Defined.

(** X13.  [_embed_sim_cleanup] on an initialized runtime clears the event
    hook, so every later [_embed_sim_event] returns at once without any
    call. *)
Theorem events_after_cleanup_are_dropped w py msg :
  Py_IsInitialized w = true →
  let w' := world_of (run _embed_sim_cleanup w) in
  run (_embed_sim_event py msg) w' = Returns tt w' [].
Proof.
  intros Hinit w'. apply event_dropped.
  exact (proj1 (cleanup_state w Hinit)).
Qed.

Lemma events_after_cleanup_are_dropped_witness :
  events_of (run (_embed_sim_event Scenario.good (Some "sim_finish"))
               (world_of (run _embed_sim_cleanup Scenario.started)))
  = [].
Proof.
  rewrite (events_after_cleanup_are_dropped
             Scenario.started Scenario.good (Some "sim_finish") eq_refl).
  reflexivity.
Defined.

(** X14.  A boot that saves no thread state never reaches the attach wait:
    whatever [COCOTB_ATTACH] holds, it neither sleeps nor reports anything
    about the variable. *)
Theorem boot_without_saved_state_never_waits P env py w :
  gtstate w = None →
  let o := run (_embed_init_python P env py) w in
  E_PyEval_SaveThread ∉ events_of o →
  Forall (λ e, is_attach_event e = false) (events_of o).
Proof.
  intros Hgt o Hno. subst o.
  destruct (boot_cases P env py w Hgt)
    as [(_ & _ & _ & _ & _ & _ & Hnone)|(w1 & pre & Hrun & Hin & _)];
    [exact Hnone|].
  destruct Hno. rewrite Hrun.
  destruct (attach_wait_returns P env w1) as (e & t & ->).
  cbn [events_of]. apply elem_of_app. left. exact Hin.
Qed.

Lemma boot_without_saved_state_never_waits_witness :
  Forall (λ e, is_attach_event e = false)
    (events_of (run (_embed_init_python Scenario.linux
                       (Scenario.venv_attach "2") Scenario.init_fails)
                    Scenario.process_start)).
Proof.
  apply (boot_without_saved_state_never_waits
           Scenario.linux (Scenario.venv_attach "2") Scenario.init_fails
           Scenario.process_start eq_refl).
  vm_compute. intros H.
  repeat (apply elem_of_cons in H as [H|H]; [discriminate|]).
  apply elem_of_nil in H. exact H.
Defined.
